(** * go-npm: a shallow embedding of [src/index.js]

    The script installs (or removes) a prebuilt Go binary from a GitHub
    release.  It is embedded here function by function.  Everything the
    script obtains from outside (process state, the manifest file, the
    output of [npm bin], the replies of the release API, the file system
    and the two library functions whose results it concatenates into
    strings) is gathered in the record [World]; everything it does to the
    outside is an [event] of a trace.  Exceptions, [process.exit] and
    asynchronous callbacks are written in a small writer/error monad. *)

From Stdlib Require Import String Ascii List ZArith Bool Lia DecimalString.
From stdpp Require Import base option gmap strings pretty.

Set Warnings "-register-all".

Local Open Scope string_scope.
Local Open Scope list_scope.
Local Open Scope Z_scope.

(** ** JavaScript values

    The values the script handles are the results of [JSON.parse] plus
    [undefined].  Strings are sequences of code units; numbers are the
    integers (identifiers, status codes, flags); an object is the list of
    its own properties, looked up by name. *)

Module JS.

Inductive value : Type :=
| JUndefined
| JNull
| JBool (b : bool)
| JNum (n : Z)
| JStr (s : string)
| JArr (xs : list value)
| JObj (fields : list (string * value)).

Inductive exn : Type :=
| TypeError
| SyntaxError
| SystemError (code : string).

(** [ToBoolean]: what [if (x)] and [!x] test. *)
Definition truthy (v : value) : bool :=
  match v with
  | JUndefined | JNull => false
  | JBool b => b
  | JNum n => negb (n =? 0)
  | JStr s => negb (String.eqb s "")
  | JArr _ | JObj _ => true
  end.

Definition typeof (v : value) : string :=
  match v with
  | JUndefined => "undefined"
  | JNull | JArr _ | JObj _ => "object"
  | JBool _ => "boolean"
  | JNum _ => "number"
  | JStr _ => "string"
  end.

(** Own properties of an object literal or of a parsed JSON object. *)
Fixpoint own (fields : list (string * value)) (k : string) : option value :=
  match fields with
  | [] => None
  | (k', v) :: rest => if String.eqb k' k then Some v else own rest k
  end.

(** [x === s] for a string [s]: no conversion takes place. *)
Definition strict_eq_str (v : value) (s : string) : bool :=
  match v with
  | JStr t => String.eqb t s
  | _ => false
  end.

(** The names every plain object inherits from [Object.prototype]. *)
Definition object_prototype_names : list string :=
  [ "constructor"; "__defineGetter__"; "__defineSetter__"; "hasOwnProperty";
    "__lookupGetter__"; "__lookupSetter__"; "isPrototypeOf";
    "propertyIsEnumerable"; "toString"; "valueOf"; "__proto__";
    "toLocaleString" ].

Definition inherited (k : string) : bool :=
  existsb (String.eqb k) object_prototype_names.

(** *** Strings *)

(** White space and line terminators in the Latin-1 range, as removed by
    [String.prototype.trim].  The strings here are sequences of 8-bit
    code units: the white space beyond U+00FF that [trim] also removes
    (U+FEFF, U+2000 to U+200A, U+2028, U+2029, U+3000 and the like)
    cannot occur in them. *)
Definition is_space (c : ascii) : bool :=
  let n := nat_of_ascii c in
  ((9 <=? n) && (n <=? 13))%nat || (n =? 32)%nat || (n =? 160)%nat.

Fixpoint trim_start (s : string) : string :=
  match s with
  | EmptyString => EmptyString
  | String c s' => if is_space c then trim_start s' else s
  end.

(** Drops the trailing white space: a character is kept when something
    that is kept follows it, or when it is not white space itself. *)
Fixpoint trim_end (s : string) : string :=
  match s with
  | EmptyString => EmptyString
  | String c s' =>
      match trim_end s' with
      | EmptyString => if is_space c then EmptyString else String c EmptyString
      | t => String c t
      end
  end.

Definition trim (s : string) : string := trim_end (trim_start s).

(** [s.substr(1)] *)
Definition substr1 (s : string) : string :=
  match s with
  | EmptyString => EmptyString
  | String _ s' => s'
  end.

(** [GetSubstitution] of ECMAScript for a pattern without capture groups:
    in the replacement text [$$] stands for a dollar sign, [$&] for the
    matched text, [$`] for the text before the match and [$'] for the
    text after it; any other dollar sign is literal. *)
Fixpoint GetSubstitution (matched before after repl : string) : string :=
  match repl with
  | EmptyString => EmptyString
  | String c r =>
      if Ascii.eqb c "$" then
        match r with
        | EmptyString => String c EmptyString
        | String d r' =>
            if Ascii.eqb d "$" then String "$" (GetSubstitution matched before after r')
            else if Ascii.eqb d "&" then matched +:+ GetSubstitution matched before after r'
            else if Ascii.eqb d "`" then before +:+ GetSubstitution matched before after r'
            else if Ascii.eqb d "'" then after +:+ GetSubstitution matched before after r'
            else String c (GetSubstitution matched before after r)
        end
      else String c (GetSubstitution matched before after r)
  end.

(** [s.replace(/pat/g, repl)] for a pattern [pat] that is a plain,
    non-empty sequence of characters.  The scan goes from left to right;
    [skip] counts the characters of the current match still to be
    dropped, [before] is the text already passed, in reverse. *)
Fixpoint replace_scan (pat repl : string) (skip : nat) (before : list ascii)
    (s : string) : string :=
  match s with
  | EmptyString => EmptyString
  | String c s' =>
      match skip with
      | S k => replace_scan pat repl k (c :: before) s'
      | O =>
          if String.prefix pat s then
            GetSubstitution pat (string_of_list_ascii (rev before))
              (substring (String.length pat) (String.length s) s) repl
            +:+ replace_scan pat repl (String.length pat - 1) (c :: before) s'
          else String c (replace_scan pat repl O (c :: before) s')
      end
  end.

Definition replace_all (pat repl s : string) : string :=
  replace_scan pat repl O [] s.

(** Does [pat] occur in [s]? *)
Fixpoint occurs (pat s : string) : bool :=
  String.prefix pat s ||
  match s with
  | EmptyString => false
  | String _ s' => occurs pat s'
  end.

End JS.
Import JS.

(** ** Effects

    A computation yields the events it caused, in order, and how it
    ended: with a value, with an exception in flight, or with the process
    terminated by [process.exit].  [Unmodelled] marks a run that leaves
    the fragment of JavaScript described here (an implicit conversion of
    a manifest field that is not a string, or the use of a property
    inherited from [Object.prototype] as if it were a table entry);
    nothing is stated about such runs. *)

(** What [octokit.endpoint] is given: the route, the coordinates, the
    headers and, for an asset, its identifier. *)
Record RequestOptions : Type := {
  route : string;
  req_owner : value;
  req_repo : value;
  authorization : option string;
  accept : option string;
  asset_id : option value
}.

Inductive event : Type :=
| ConsoleError (line : string)
| ConsoleLog (line : string)
| Exec (command : string)
| Mkdirp (dir : string)
| Unlink (file : string)
| Request (options : RequestOptions).

Inductive outcome (A : Type) : Type :=
| Ret (a : A)
| Throw (e : exn)
| Exited (code : Z)
| Unmodelled.
Arguments Ret {A} a.
Arguments Throw {A} e.
Arguments Exited {A} code.
Arguments Unmodelled {A}.

Definition M (A : Type) : Type := (list event * outcome A)%type.

Definition ret {A} (a : A) : M A := ([], Ret a).
Definition throw {A} (e : exn) : M A := ([], Throw e).
Definition unmodelled {A} : M A := ([], Unmodelled).
Definition emit (e : event) : M unit := ([e], Ret tt).

(** [process.exit(code)]: nothing runs afterwards. *)
Definition process_exit {A} (code : Z) : M A := ([], Exited code).

Definition bind {A B} (m : M A) (k : A -> M B) : M B :=
  match m with
  | (l, Ret a) => let (l', o) := k a in (l ++ l', o)
  | (l, Throw e) => (l, Throw e)
  | (l, Exited c) => (l, Exited c)
  | (l, Unmodelled) => (l, Unmodelled)
  end.

(** [try { m } catch (ex) { handler ex }] *)
Definition try_catch {A} (m : M A) (handler : exn -> M A) : M A :=
  match m with
  | (l, Throw e) => let (l', o) := handler e in (l ++ l', o)
  | _ => m
  end.

Declare Scope js_scope.
Delimit Scope js_scope with js.
Notation "'let*' x ':=' m 'in' k" := (bind m (fun x => k))
  (at level 10, x name, m at level 100, k at level 200) : js_scope.
Notation "m ';;;' k" := (bind m (fun _ : unit => k))
  (at level 100, k at level 200, right associativity) : js_scope.
Local Open Scope js_scope.

Definition console_error (line : string) : M unit := emit (ConsoleError line).
Definition console_log (line : string) : M unit := emit (ConsoleLog line).

Definition events {A} (m : M A) : list event := fst m.
Definition result {A} (m : M A) : outcome A := snd m.

(** [v.k]: reading a property of [undefined] or [null] throws.  The
    names the script reads ([goBinary], [version], [name], [path],
    [owner], [repo], [assetName], [auth], [tag_name], [assets], [id]) are
    defined on no built-in prototype, so a value that is not an object,
    or an object without the property, gives [undefined]. *)
Definition get (v : value) (k : string) : M value :=
  match v with
  | JUndefined | JNull => throw TypeError
  | JObj fields => ret (default JUndefined (own fields k))
  | _ => ret JUndefined
  end.

(** A manifest field used as a string.  A field of another type would
    be converted implicitly; that conversion is not described. *)
Definition as_string (v : value) : M string :=
  match v with
  | JStr s => ret s
  | _ => unmodelled
  end.

(** [xs.find(p)]: the first element on which [p] holds; an exception
    raised by [p] ends the search. *)
Fixpoint find (p : value -> M bool) (xs : list value) : M (option value) :=
  match xs with
  | [] => ret None
  | x :: rest =>
      let* b := p x in
      if b then ret (Some x) else find p rest
  end.

(** ** The world *)

Inductive ManifestFile : Type :=
| Missing
| Malformed
| Parsed (packageJson : value).

(** What the callback of [exec] receives. *)
Record ExecResult : Type := {
  exec_err : bool;
  stdout : string;
  stderr : string
}.

Inductive Body : Type :=
| BadJson
| Json (v : value).

Inductive HttpReply : Type :=
| NetworkError (error : string)
| Response (statusCode : Z) (body : Body).

Record World : Type := {
  process_arch : string;
  process_platform : string;
  process_env : gmap string string;
  process_cwd : string;
  process_argv : list string;
  (** the file [./package.json] *)
  package_json : ManifestFile;
  (** the result of running [npm bin] *)
  npm_bin : ExecResult;
  (** [mkdirp.sync] and [fs.unlinkSync]: the error code they fail with on
      a path, if any *)
  mkdirp_error : string -> option string;
  unlink_error : string -> option string;
  (** the reply to the request for the list of releases *)
  releases_reply : HttpReply;
  (** [path.join] of two segments *)
  path_join : string -> string -> string;
  (** the [url] that [octokit.endpoint] computes *)
  endpoint_url : RequestOptions -> string
}.

(** ** The script *)

(** Mapping from Node's [process.arch] to Golang's [$GOARCH] *)
Definition ARCH_MAPPING : gmap string string :=
  list_to_map [("ia32", "386"); ("x64", "amd64"); ("arm", "arm"); ("arm64", "arm64")].

(** Mapping between Node's [process.platform] to Golang's *)
Definition PLATFORM_MAPPING : gmap string string :=
  list_to_map [("darwin", "darwin"); ("linux", "linux"); ("win32", "windows");
               ("freebsd", "freebsd")].

(** [k in table]: own and inherited properties both count. *)
Definition js_in (k : string) (table : gmap string string) : bool :=
  bool_decide (is_Some (table !! k)) || inherited k.

(** [table[k]] where a string is expected; the script reads the tables
    only under the guard [k in table]. *)
Definition table_entry (table : gmap string string) (k : string) : M string :=
  match table !! k with
  | Some v => ret v
  | None => unmodelled
  end.

Definition nonempty (s : string) : bool := negb (String.eqb s "").

Definition getInstallationPath {A} (w : World)
    (callback : option string -> string -> M A) : M A :=
  (* `npm bin` will output the path where binary files should be installed *)
  emit (Exec "npm bin") ;;;
  let r := npm_bin w in
  let dir : option string :=
    if exec_err r || nonempty (stderr r) || negb (nonempty (stdout r))
       || (String.length (stdout r) =? 0)%nat
    then
      (* try the environment variable set by NPM when it runs *)
      match process_env w !! "npm_config_prefix" with
      | Some prefix =>
          if nonempty prefix then Some (path_join w prefix "bin") else None
      | None => None
      end
    else Some (trim (stdout r)) in
  let dir : string :=
    match dir with
    | Some d => if nonempty d then d
                else path_join w (process_cwd w) "node_modules/.bin"
    | None => path_join w (process_cwd w) "node_modules/.bin"
    end in
  callback None dir.

Definition validateConfiguration (packageJson : value) : M (option string) :=
  let* goBinary := get packageJson "goBinary" in
  let* version := get goBinary "version" in
  if negb (truthy version) then
    ret (Some "'version' property must be specified")
  else
  let* goBinary := get packageJson "goBinary" in
  if negb (truthy goBinary) || negb (String.eqb (typeof goBinary) "object") then
    ret (Some "'goBinary' property must be defined and be an object")
  else
  let* name := get goBinary "name" in
  if negb (truthy name) then ret (Some "'name' property is necessary") else
  let* path := get goBinary "path" in
  if negb (truthy path) then ret (Some "'path' property is necessary") else
  let* owner := get goBinary "owner" in
  if negb (truthy owner) then ret (Some "'owner' property is necessary") else
  let* repo := get goBinary "repo" in
  if negb (truthy repo) then ret (Some "'repo' property is necessary") else
  let* assetName := get goBinary "assetName" in
  if negb (truthy assetName) then ret (Some "'assetName' property is required") else
  ret None.

(** The resolved install options. *)
Record Options : Type := {
  binName : string;
  binPath : value;
  version : string;
  auth : value;
  owner : value;
  repo : value;
  assetName : string
}.

(** The four replacements of the asset-name template, in the order of
    the source. *)
Definition substitute (arch platform version binName assetName : string) : string :=
  let assetName := replace_all "{{arch}}" arch assetName in
  let assetName := replace_all "{{platform}}" platform assetName in
  let assetName := replace_all "{{version}}" version assetName in
  let assetName := replace_all "{{bin_name}}" binName assetName in
  assetName.

(** [error && error.length > 0] *)
Definition reported (error : option string) : bool :=
  match error with
  | Some msg => nonempty msg && (0 <? String.length msg)%nat
  | None => false
  end.

Definition parsePackageJson (w : World) : M (option Options) :=
  if negb (js_in (process_arch w) ARCH_MAPPING) then
    console_error ("Installation is not supported for this architecture: "
                   +:+ process_arch w) ;;;
    ret None
  else
  if negb (js_in (process_platform w) PLATFORM_MAPPING) then
    console_error ("Installation is not supported for this platform: "
                   +:+ process_platform w) ;;;
    ret None
  else
  match package_json w with
  | Missing =>
      console_error ("Unable to find package.json. " +:+
        "Please run this script at root of the package you want to be installed") ;;;
      ret None
  | Malformed => throw SyntaxError
  | Parsed packageJson =>
      let* error := validateConfiguration packageJson in
      if reported error then
        console_error ("Invalid package.json: " +:+ default "" error) ;;; ret None
      else
          (* We have validated the config. It exists in all its glory *)
          let* goBinary := get packageJson "goBinary" in
          let* binName := get goBinary "name" in
          let* binPath := get goBinary "path" in
          let* auth := get goBinary "auth" in
          let* owner := get goBinary "owner" in
          let* repo := get goBinary "repo" in
          let* assetName := get goBinary "assetName" in
          let* version := get goBinary "version" in
          let* version := as_string version in
          (* strip the 'v' if necessary v0.0.1 => 0.0.1 *)
          let version :=
            match version with
            | String c _ => if Ascii.eqb c "v" then substr1 version else version
            | EmptyString => version
            end in
          let* binName := as_string binName in
          (* Binary name on Windows has .exe suffix *)
          let binName :=
            if String.eqb (process_platform w) "win32" then binName +:+ ".exe"
            else binName in
          let* assetName :=
            match assetName with
            | JStr s => ret s
            | _ => throw TypeError
            end in
          let* arch := table_entry ARCH_MAPPING (process_arch w) in
          let* platform := table_entry PLATFORM_MAPPING (process_platform w) in
          ret (Some {| binName := binName;
                       binPath := binPath;
                       version := version;
                       auth := auth;
                       owner := owner;
                       repo := repo;
                       assetName := substitute arch platform version binName assetName |})
  end.

Definition INVALID_INPUT : string := "Invalid inputs".

(** [number + ""] for an integer. *)
Definition show (n : Z) : string := NilZero.string_of_int (Z.to_int n).

(** [!!token ? `token ${token}` : undefined] *)
Definition authorization_header (token : option string) : option string :=
  match token with
  | Some t => if nonempty t then Some ("token " +:+ t) else None
  | None => None
  end.

Definition releasesOptions (opts : Options) (token : option string) : RequestOptions :=
  {| route := "GET /repos/{owner}/{repo}/releases";
     req_owner := owner opts;
     req_repo := repo opts;
     authorization := authorization_header token;
     accept := None;
     asset_id := None |}.

Definition assetOptions (opts : Options) (token : option string) (id : value)
    : RequestOptions :=
  {| route := "GET /repos/{owner}/{repo}/releases/assets/{asset_id}";
     req_owner := owner opts;
     req_repo := repo opts;
     authorization := authorization_header token;
     accept := Some "application/octet-stream";
     asset_id := Some id |}.

(** The tag looked for among the releases. *)
Definition tag_of (opts : Options) : string := "v" +:+ version opts.

(** [xs.find(p)] on a value: only an array has the method. *)
Definition find_in (xs : value) (p : value -> M bool) : M (option value) :=
  match xs with
  | JArr l => find p l
  | _ => throw TypeError
  end.

(** The callback of the request for the list of releases.  It ends by
    issuing the request for the asset; the transfer that follows
    (response, gunzip, untar, [verifyAndPlaceBinary]) belongs to later
    turns of the event loop and is not described. *)
Definition onReleaseResponse (w : World) (opts : Options) (token : option string)
    (callback : option string -> M unit) (reply : HttpReply) : M unit :=
  match reply with
  | NetworkError error =>
      callback (Some ("Error downloading from URL: "
                      +:+ endpoint_url w (releasesOptions opts token)
                      +:+ " " +:+ error))
  | Response statusCode body =>
      if negb (statusCode =? 200) then
        callback (Some ("Error requesting release info. HTTP Status Code: "
                        +:+ show statusCode))
      else
      let tag := tag_of opts in
      let* responseBody :=
        match body with
        | Json v => ret v
        | BadJson => throw SyntaxError
        end in
      let* release :=
        find_in responseBody (fun x =>
          let* tag_name := get x "tag_name" in
          ret (strict_eq_str tag_name tag)) in
      match release with
      | None => callback (Some ("Release with tag " +:+ tag +:+ " not found"))
      | Some release =>
          let* assets := get release "assets" in
          let* asset :=
            find_in assets (fun x =>
              let* name := get x "name" in
              ret (strict_eq_str name (assetName opts))) in
          match asset with
          | None =>
              callback (Some ("Asset with name " +:+ assetName opts +:+ " not found"))
          | Some asset =>
              let* id := get asset "id" in
              emit (Request (assetOptions opts token id))
          end
      end
  end.

Definition mkdirp_sync (w : World) (dir : value) : M unit :=
  match dir with
  | JStr p =>
      match mkdirp_error w p with
      | Some code => throw (SystemError code)
      | None => emit (Mkdirp p)
      end
  | _ => unmodelled
  end.

Definition unlinkSync (w : World) (file : string) : M unit :=
  match unlink_error w file with
  | Some code => throw (SystemError code)
  | None => emit (Unlink file)
  end.

Definition install (w : World) (callback : option string -> M unit) : M unit :=
  let* opts := parsePackageJson w in
  match opts with
  | None => callback (Some INVALID_INPUT)
  | Some opts =>
      mkdirp_sync w (binPath opts) ;;;
      let token : option string :=
        if truthy (auth opts) then process_env w !! "GITHUB_TOKEN" else None in
      if truthy (auth opts)
         && negb (match token with Some t => nonempty t | None => false end)
      then
        console_error ("Please provide username in options and GITHUB_TOKEN "
                       +:+ "environment variable to authenticate")
      else
        emit (Request (releasesOptions opts token)) ;;;
        onReleaseResponse w opts token callback (releases_reply w)
  end.

(** The body of the [try] block of [uninstall]:
    [fs.unlinkSync(path.join(installationPath, opts.binName))], where
    [opts] is whatever [parsePackageJson] returned. *)
Definition delete_binary (w : World) (opts : option Options)
    (installationPath : string) : M unit :=
  let* binName :=
    match opts with
    | Some o => ret (binName o)
    | None => throw TypeError
    end in
  unlinkSync w (path_join w installationPath binName).

Definition uninstall (w : World) (callback : option string -> M unit) : M unit :=
  let* opts := parsePackageJson w in
  getInstallationPath w (fun err installationPath =>
    match err with
    | Some e => if nonempty e then callback (Some "Error finding binary installation directory")
                else ret tt
    | None => ret tt
    end ;;;
    try_catch (delete_binary w opts installationPath)
      (fun ex => (* Ignore errors when deleting the file. *) ret tt) ;;;
    callback None).

(** Parse command line arguments and call the right method *)
Inductive action : Type := Install | Uninstall.

Definition actions : gmap string action :=
  list_to_map [("install", Install); ("uninstall", Uninstall)].

Definition run (a : action) : World -> (option string -> M unit) -> M unit :=
  match a with
  | Install => install
  | Uninstall => uninstall
  end.

(** The callback the script passes to the action. *)
Definition report (err : option string) : M unit :=
  match err with
  | Some e =>
      if nonempty e then console_error e ;;; process_exit 1
      else process_exit 0
  | None => process_exit 0
  end.

Definition main (w : World) : M unit :=
  match process_argv w with
  | _ :: _ :: cmd :: _ =>
      match actions !! cmd with
      | Some a => run a w report
      | None =>
          if inherited cmd then unmodelled
          else
            console_log ("Invalid command to go-npm. `install` and `uninstall` "
                         +:+ "are the only supported commands") ;;;
            process_exit 1
      end
  | _ => ret tt
  end.

(** ** Vocabulary of the statements *)

(** A field of the descriptor; [undefined] when absent. *)
Definition field (goBinary : list (string * value)) (k : string) : value :=
  default JUndefined (own goBinary k).

(** The fields the specification requires, in the order it lists them. *)
Definition required_fields : list string :=
  ["version"; "name"; "path"; "owner"; "repo"; "assetName"].

(** Absent or empty: the field does not pass [if (x)]. *)
Definition missing (goBinary : list (string * value)) (k : string) : bool :=
  negb (truthy (field goBinary k)).

(** A message names a field when it quotes it. *)
Definition names_field (msg k : string) : bool :=
  occurs ("'" +:+ k +:+ "'") msg.

(** [version] without its leading [v]. *)
Definition strip_v (version : string) : string :=
  match version with
  | String c rest => if Ascii.eqb c "v" then rest else version
  | EmptyString => version
  end.

(** The binary name the script settles on. *)
Definition resolved_name (w : World) (name : string) : string :=
  if String.eqb (process_platform w) "win32" then name +:+ ".exe" else name.

(** The host is one the two tables know. *)
Definition supported (w : World) (arch platform : string) : Prop :=
  ARCH_MAPPING !! process_arch w = Some arch /\
  PLATFORM_MAPPING !! process_platform w = Some platform.

(** A property of a value that is neither [undefined] nor [null]. *)
Definition nullish (v : value) : bool :=
  match v with
  | JUndefined | JNull => true
  | _ => false
  end.

Definition prop (v : value) (k : string) : value :=
  match v with
  | JObj fields => field fields k
  | _ => JUndefined
  end.

(** The shape the release API documents: a release is an object whose
    [assets] is an array of asset objects. *)
Definition is_asset (v : value) : bool :=
  match v with
  | JObj _ => true
  | _ => false
  end.

Definition is_release (v : value) : bool :=
  match v with
  | JObj fields =>
      match field fields "assets" with
      | JArr assets => forallb is_asset assets
      | _ => false
      end
  | _ => false
  end.

(** The release and the asset the specification asks for: the first
    release whose tag is the wanted one, the first asset of the wanted
    name. *)
Definition first_release (tag : string) (releases : list value) : option value :=
  List.find (fun x => strict_eq_str (prop x "tag_name") tag) releases.

Definition first_asset (name : string) (release : value) : option value :=
  match prop release "assets" with
  | JArr assets => List.find (fun x => strict_eq_str (prop x "name") name) assets
  | _ => None
  end.

(** The events of an attempt to delete a file. *)
Definition deletion (w : World) (file : string) : list event :=
  match unlink_error w file with
  | Some _ => []
  | None => [Unlink file]
  end.

Definition usage : string :=
  "Invalid command to go-npm. `install` and `uninstall` are the only supported commands".

Definition missing_token : string :=
  "Please provide username in options and GITHUB_TOKEN environment variable to authenticate".

(** *** Templates

    The four placeholders of an asset name, and templates written as a
    sequence of literal text and placeholders. *)
Inductive placeholder : Type := PArch | PPlatform | PVersion | PBinName.

Definition token (ph : placeholder) : string :=
  match ph with
  | PArch => "{{arch}}"
  | PPlatform => "{{platform}}"
  | PVersion => "{{version}}"
  | PBinName => "{{bin_name}}"
  end.

Definition placeholder_eqb (x y : placeholder) : bool :=
  match x, y with
  | PArch, PArch | PPlatform, PPlatform | PVersion, PVersion
  | PBinName, PBinName => true
  | _, _ => false
  end.

Inductive segment : Type :=
| Text (s : string)
| Hole (ph : placeholder).

Fixpoint all_chars (f : ascii -> bool) (s : string) : bool :=
  match s with
  | EmptyString => true
  | String c s' => f c && all_chars f s'
  end.

Definition is_brace (c : ascii) : bool := Ascii.eqb c "{" || Ascii.eqb c "}".
Definition is_dollar (c : ascii) : bool := Ascii.eqb c "$".

(** Text without braces; a value without braces and dollar signs. *)
Definition brace_free (s : string) : bool :=
  all_chars (fun c => negb (is_brace c)) s.
Definition dollar_free (s : string) : bool :=
  all_chars (fun c => negb (is_dollar c)) s.
Definition plain (s : string) : bool := brace_free s && dollar_free s.

Definition segment_text (seg : segment) : string :=
  match seg with
  | Text s => s
  | Hole ph => token ph
  end.

(** The template as the manifest writes it. *)
Fixpoint render (t : list segment) : string :=
  match t with
  | [] => EmptyString
  | seg :: t' => segment_text seg +:+ render t'
  end.

Definition well_formed (t : list segment) : bool :=
  forallb (fun seg => match seg with
                      | Text s => brace_free s
                      | Hole _ => true
                      end) t.

(** One placeholder resolved in a template. *)
Definition resolve (ph : placeholder) (val : string) (seg : segment) : segment :=
  match seg with
  | Text s => Text s
  | Hole ph' => if placeholder_eqb ph' ph then Text val else Hole ph'
  end.

(** The template with every placeholder replaced by its value. *)
Definition fill (arch platform version binName : string) (t : list segment) : string :=
  render (map (fun seg =>
                 match seg with
                 | Text s => Text s
                 | Hole PArch => Text arch
                 | Hole PPlatform => Text platform
                 | Hole PVersion => Text version
                 | Hole PBinName => Text binName
                 end) t).

(** No placeholder is left in a string. *)
Definition resolved (s : string) : Prop :=
  forall ph, occurs (token ph) s = false.

(** ** A sample world: the scenario of the specification *)

Definition sample_goBinary : list (string * value) :=
  [ ("name", JStr "mytool"); ("path", JStr "./bin"); ("version", JStr "v1.0.0");
    ("owner", JStr "acme"); ("repo", JStr "mytool");
    ("assetName", JStr "mytool-{{platform}}-{{arch}}") ].

Definition sample_manifest : list (string * value) :=
  [ ("name", JStr "mytool-npm"); ("goBinary", JObj sample_goBinary) ].

Definition sample_asset : value :=
  JObj [("name", JStr "mytool-linux-amd64"); ("id", JNum 12)].

Definition sample_release : value :=
  JObj [ ("tag_name", JStr "v1.0.0");
         ("assets", JArr [ JObj [("name", JStr "mytool-darwin-amd64"); ("id", JNum 11)];
                           sample_asset ]) ].

Definition sample_release_list : list value :=
  [ JObj [ ("tag_name", JStr "v1.1.0"); ("assets", JArr []) ]; sample_release ].

Definition sample_releases : value := JArr sample_release_list.

Definition sample_join (a b : string) : string := a +:+ "/" +:+ b.

Definition sample_url (o : RequestOptions) : string :=
  "https://api.github.com" +:+ route o.

Definition npm_bin_ok : ExecResult :=
  {| exec_err := false; stdout := "/home/dev/pkg/node_modules/.bin
"; stderr := "" |}.

(** A 64-bit Linux host; the rest is given. *)
Definition linux_world (argv : list string) (env : gmap string string)
    (file : ManifestFile) (npm : ExecResult) (reply : HttpReply) : World :=
  {| process_arch := "x64";
     process_platform := "linux";
     process_env := env;
     process_cwd := "/home/dev/pkg";
     process_argv := argv;
     package_json := file;
     npm_bin := npm;
     mkdirp_error := fun _ => None;
     unlink_error := fun _ => Some "ENOENT";
     releases_reply := reply;
     path_join := sample_join;
     endpoint_url := sample_url |}.

Definition sample_world : World :=
  linux_world ["node"; "index.js"; "install"] ∅ (Parsed (JObj sample_manifest))
    npm_bin_ok (Response 200 (Json sample_releases)).

(** The options the sample manifest resolves to. *)
Definition sample_options : Options :=
  {| binName := "mytool";
     binPath := JStr "./bin";
     version := "1.0.0";
     auth := JUndefined;
     owner := JStr "acme";
     repo := JStr "mytool";
     assetName := "mytool-linux-amd64" |}.

(** A descriptor without [path] and [repo]. *)
Definition broken_goBinary : list (string * value) :=
  [ ("name", JStr "mytool"); ("version", JStr "v1.0.0"); ("owner", JStr "acme");
    ("repo", JStr ""); ("assetName", JStr "mytool-{{platform}}-{{arch}}") ].

Definition broken_manifest : list (string * value) :=
  [ ("goBinary", JObj broken_goBinary) ].

(** [npm bin] prints a blank line; the prefix of npm is in the
    environment. *)
Definition blank_npm : ExecResult :=
  {| exec_err := false; stdout := " 
"; stderr := "" |}.

Definition blank_world : World :=
  linux_world ["node"; "index.js"; "uninstall"]
    {[ "npm_config_prefix" := "/usr/local" ]}
    (Parsed (JObj sample_manifest)) blank_npm (Response 200 (Json sample_releases)).

(** [npm bin] prints nothing at all; the same environment. *)
Definition empty_npm : ExecResult :=
  {| exec_err := false; stdout := ""; stderr := "" |}.

Definition empty_world : World :=
  linux_world ["node"; "index.js"; "uninstall"]
    {[ "npm_config_prefix" := "/usr/local" ]}
    (Parsed (JObj sample_manifest)) empty_npm (Response 200 (Json sample_releases)).

(** [uninstall] run on a manifest file that is not JSON. *)
Definition malformed_world : World :=
  linux_world ["node"; "index.js"; "uninstall"] ∅ Malformed
    npm_bin_ok (Response 200 (Json sample_releases)).

(** The sample manifest with [auth] set; no token in the environment. *)
Definition auth_manifest : list (string * value) :=
  [ ("goBinary", JObj (("auth", JBool true) :: sample_goBinary)) ].

Definition auth_world : World :=
  linux_world ["node"; "index.js"; "install"] ∅ (Parsed (JObj auth_manifest))
    npm_bin_ok (Response 200 (Json sample_releases)).

(** An unknown command. *)
Definition help_world : World :=
  linux_world ["node"; "index.js"; "help"] ∅ (Parsed (JObj sample_manifest))
    npm_bin_ok (Response 200 (Json sample_releases)).

(** [uninstall] run where there is no manifest. *)
Definition missing_world : World :=
  linux_world ["node"; "index.js"; "uninstall"] ∅ Missing
    npm_bin_ok (Response 200 (Json sample_releases)).

Definition uninstall_world : World :=
  linux_world ["node"; "index.js"; "uninstall"] ∅ (Parsed (JObj sample_manifest))
    npm_bin_ok (Response 200 (Json sample_releases)).

(** ** The transfer of the asset

    What follows the request for the asset: the handlers that [install]
    registers on the request and on the two streams, and
    [verifyAndPlaceBinary].  A callback may now receive an error object
    besides a string, and a file may be moved, so this stage has its own
    trace: the events of before, and [Rename]. *)

(** The first argument of a callback: [null], a string, or an error
    object, given by what [console.error] prints for it. *)
Inductive error_value : Type :=
| ENull
| EStr (s : string)
| EObject (printed : string).

Inductive step : Type :=
| Core (e : event)
| Rename (from to : string).

Definition P (A : Type) : Type := (list step * outcome A)%type.

Definition lift {A} (m : M A) : P A := (map Core (events m), result m).

Definition pbind {A B} (m : P A) (k : A -> P B) : P B :=
  match m with
  | (l, Ret a) => let (l', o) := k a in (l ++ l', o)
  | (l, Throw e) => (l, Throw e)
  | (l, Exited c) => (l, Exited c)
  | (l, Unmodelled) => (l, Unmodelled)
  end.

(** What the events emitted by the request and the streams can be. *)
Inductive emitter_event : Type :=
| RequestError (printed : string)
| AssetResponse (statusCode : Z)
| GunzipError (printed : string)
| UntarError (printed : string)
| UntarEnd.

(** The file system as the placement of the binary meets it. *)
Record Transfer : Type := {
  (** [fs.existsSync] *)
  existsSync : string -> bool;
  (** [fs.renameSync]: the error code it fails with, if any *)
  rename_error : string -> string -> option string
}.

Definition renameSync (t : Transfer) (from to : string) : P unit :=
  match rename_error t from to with
  | Some code => ([], Throw (SystemError code))
  | None => ([Rename from to], Ret tt)
  end.

Definition verifyAndPlaceBinary (w : World) (t : Transfer) (binName binPath : string)
    (callback : error_value -> P unit) : P unit :=
  if negb (existsSync t (path_join w binPath binName)) then
    callback (EStr ("Downloaded binary does not contain the binary specified "
                    +:+ "in configuration - " +:+ binName))
  else
  pbind (lift (getInstallationPath w (fun err installationPath =>
                                        ret (err, installationPath))))
    (fun '(err, installationPath) =>
       if match err with Some e => nonempty e | None => false end then
         callback (EStr "Error getting binary installation path from `npm bin`")
       else
       (* Move the binary file *)
       pbind (renameSync t (path_join w binPath binName)
                (path_join w installationPath binName))
         (fun _ => callback ENull)).

(** The handler of each event, as [install] registers them.  [opts] has
    no [url], so the message of a failed request ends in "undefined". *)
Definition on_event (w : World) (t : Transfer) (opts : Options)
    (callback : error_value -> P unit) (e : emitter_event) : P unit :=
  match e with
  | RequestError _ => callback (EStr ("Error downloading from URL: " +:+ "undefined"))
  | AssetResponse statusCode =>
      if negb (statusCode =? 200) then
        callback (EStr ("Error downloading binary. HTTP Status Code: "
                        +:+ show statusCode))
      else (* assetRequest.pipe(ungz).pipe(untar) *) ([], Ret tt)
  | GunzipError printed => callback (EObject printed)
  | UntarError printed => callback (EObject printed)
  | UntarEnd =>
      match binPath opts with
      | JStr dir => verifyAndPlaceBinary w t (binName opts) dir callback
      | _ => ([], Throw TypeError)
      end
  end.

(** The events of the request and of the two streams, in the order
    they fire, are handled one by one; an uncaught exception or
    [process.exit] ends the process.  The handler of the end of the
    extraction is run together with the callback of [npm bin] that it
    starts; runs in which another event fires between the two are not
    described. *)
Fixpoint dispatch (w : World) (t : Transfer) (opts : Options)
    (callback : error_value -> P unit) (es : list emitter_event) : P unit :=
  match es with
  | [] => ([], Ret tt)
  | e :: rest =>
      pbind (on_event w t opts callback e)
        (fun _ => dispatch w t opts callback rest)
  end.

(** The callback of the script, on any error value. *)
Definition report_value (err : error_value) : P unit :=
  match err with
  | ENull => lift (report None)
  | EStr s => lift (report (Some s))
  | EObject printed => lift (console_error printed ;;; process_exit 1)
  end.

(** An event that is handled by calling back or by placing the binary:
    any event but a response with status 200. *)
Definition decisive (e : emitter_event) : bool :=
  match e with
  | AssetResponse statusCode => negb (statusCode =? 200)
  | _ => true
  end.

(** The line the script writes for an event that reports a failure. *)
Definition failure_line (e : emitter_event) : option string :=
  match e with
  | RequestError _ => Some "Error downloading from URL: undefined"
  | AssetResponse statusCode =>
      if statusCode =? 200 then None
      else Some ("Error downloading binary. HTTP Status Code: " +:+ show statusCode)
  | GunzipError printed => Some printed
  | UntarError printed => Some printed
  | UntarEnd => None
  end.

(** *** Vocabulary *)

(** Every event of a run satisfies [E], and if the run ends in
    [process.exit] the code satisfies [C]. *)
Definition always {A} (E : event -> Prop) (C : Z -> Prop) (m : M A) : Prop :=
  Forall E (events m) /\ forall code, result m = Exited code -> C code.

(** If the run ends in [process.exit], the code is 1 and the last thing
    done before was a [console.error]. *)
Definition fails_with_report {A} (m : M A) : Prop :=
  forall code, result m = Exited code ->
    code = 1 /\ exists l line, events m = l ++ [ConsoleError line].

(** The token [install] sends: read only when [auth] is set. *)
Definition token_of (w : World) (opts : Options) : option string :=
  if truthy (auth opts) then process_env w !! "GITHUB_TOKEN" else None.

(** The extraction directory exists after the transfer, with the binary
    in it; every move succeeds. *)
Definition sample_transfer (present : bool) : Transfer :=
  {| existsSync := fun _ => present;
     rename_error := fun _ _ => None |}.

(** A Windows host with the sample manifest. *)
Definition windows_world : World :=
  {| process_arch := "x64";
     process_platform := "win32";
     process_env := ∅;
     process_cwd := "C:/pkg";
     process_argv := ["node"; "index.js"; "install"];
     package_json := Parsed (JObj sample_manifest);
     npm_bin := {| exec_err := false; stdout := "C:/pkg/node_modules/.bin
"; stderr := "" |};
     mkdirp_error := fun _ => None;
     unlink_error := fun _ => None;
     releases_reply := Response 200 (Json sample_releases);
     path_join := sample_join;
     endpoint_url := sample_url |}.

(** A host of an architecture the table does not know. *)
Definition mips_world (file : ManifestFile) : World :=
  {| process_arch := "mips";
     process_platform := "linux";
     process_env := ∅;
     process_cwd := "/home/dev/pkg";
     process_argv := ["node"; "index.js"; "install"];
     package_json := file;
     npm_bin := npm_bin_ok;
     mkdirp_error := fun _ => None;
     unlink_error := fun _ => None;
     releases_reply := Response 200 (Json sample_releases);
     path_join := sample_join;
     endpoint_url := sample_url |}.

(** * Properties *)

(** ** The string functions on examples *)

Example replace_all_global :
  replace_all "{{arch}}" "amd64" "a-{{arch}}-{{arch}}{{Arch}}{{archx}}"
  = "a-amd64-amd64{{Arch}}{{archx}}".
Proof. reflexivity. Qed.

Example replace_all_dollar :
  replace_all "{{version}}" "<$&|$`|$'|$$|$1>" "ab{{version}}cd"
  = "ab<{{version}}|ab|cd|$|$1>cd".
Proof. reflexivity. Qed.

Example trim_lines : trim "  /usr/local/bin 
" = "/usr/local/bin".
Proof. reflexivity. Qed.

Example show_status : show 404 = "404" /\ show 0 = "0".
Proof. split; reflexivity. Qed.

Example tables_inherit :
  js_in "x64" ARCH_MAPPING = true /\ js_in "mips" ARCH_MAPPING = false /\
  js_in "toString" ARCH_MAPPING = true.
Proof. repeat split; reflexivity. Qed.

(** ** The monad *)

Lemma bind_ret_l {A B} (a : A) (k : A -> M B) : bind (ret a) k = k a.
Proof. unfold bind, ret. destruct (k a) as [l o]. reflexivity. Qed.

Lemma bind_emit {B} (e : event) (k : unit -> M B) :
  bind (emit e) k = (e :: events (k tt), result (k tt)).
Proof. unfold bind, emit. destruct (k tt) as [l o]. reflexivity. Qed.

Lemma bind_throw {A B} (e : exn) (k : A -> M B) : bind (throw e) k = throw e.
Proof. reflexivity. Qed.

Lemma bind_unmodelled {A B} (k : A -> M B) : bind unmodelled k = unmodelled.
Proof. reflexivity. Qed.

Lemma get_obj (fields : list (string * value)) (k : string) :
  get (JObj fields) k = ret (field fields k).
Proof. reflexivity. Qed.

Lemma field_own (fields : list (string * value)) (k : string) (v : value) :
  own fields k = Some v -> field fields k = v.
Proof. intros H. unfold field. rewrite H. reflexivity. Qed.

(** ** The tables *)

Lemma table_in (table : gmap string string) (k v : string) :
  table !! k = Some v -> js_in k table = true.
Proof.
  intros Hk. unfold js_in. rewrite Hk.
  rewrite bool_decide_eq_true_2; [reflexivity | eauto].
Qed.

(** ** Validation *)

Lemma truthy_nonempty_str (s : string) : truthy (JStr s) = nonempty s.
Proof. reflexivity. Qed.

(** On a descriptor that is an object, validation reports the first
    required field that is missing, and nothing when none is. *)
Lemma validate_object (pkg gb : list (string * value)) :
  own pkg "goBinary" = Some (JObj gb) ->
  validateConfiguration (JObj pkg) =
  ret (if missing gb "version" then Some "'version' property must be specified"
       else if missing gb "name" then Some "'name' property is necessary"
       else if missing gb "path" then Some "'path' property is necessary"
       else if missing gb "owner" then Some "'owner' property is necessary"
       else if missing gb "repo" then Some "'repo' property is necessary"
       else if missing gb "assetName" then Some "'assetName' property is required"
       else None).
Proof.
  intros Hgb. unfold validateConfiguration.
  rewrite !get_obj, !bind_ret_l, !(field_own _ _ _ Hgb).
  rewrite !get_obj. unfold missing.
  repeat (rewrite bind_ret_l;
          match goal with
          | |- context [negb (truthy (field gb ?k))] =>
              destruct (truthy (field gb k)); cbn [negb]; [|reflexivity]
          end;
          cbn [truthy typeof negb orb String.eqb Ascii.eqb Bool.eqb]).
  reflexivity.
Qed.

Lemma missing_str (gb : list (string * value)) (k s : string) :
  field gb k = JStr s -> missing gb k = negb (nonempty s).
Proof. intros H. unfold missing. rewrite H. reflexivity. Qed.

(** ** Parsing a valid manifest *)

Lemma strip_v_spec (ver : string) :
  match ver with
  | String c _ => if Ascii.eqb c "v" then substr1 ver else ver
  | EmptyString => ver
  end = strip_v ver.
Proof. destruct ver as [|c rest]; [reflexivity|]. cbn. destruct (Ascii.eqb c "v"); reflexivity. Qed.

Lemma parse_valid (w : World) (pkg gb : list (string * value))
    (a p name ver tmpl : string) :
  ARCH_MAPPING !! process_arch w = Some a ->
  PLATFORM_MAPPING !! process_platform w = Some p ->
  package_json w = Parsed (JObj pkg) ->
  own pkg "goBinary" = Some (JObj gb) ->
  field gb "version" = JStr ver -> nonempty ver = true ->
  field gb "name" = JStr name -> nonempty name = true ->
  missing gb "path" = false ->
  missing gb "owner" = false ->
  missing gb "repo" = false ->
  field gb "assetName" = JStr tmpl -> nonempty tmpl = true ->
  parsePackageJson w =
  ret (Some {| binName := resolved_name w name;
               binPath := field gb "path";
               version := strip_v ver;
               auth := field gb "auth";
               owner := field gb "owner";
               repo := field gb "repo";
               assetName :=
                 substitute a p (strip_v ver) (resolved_name w name) tmpl |}).
Proof.
  intros Ha Hp Hfile Hgb Hver Hver' Hname Hname' Hpath Howner Hrepo Htmpl Htmpl'.
  unfold parsePackageJson.
  rewrite (table_in _ _ _ Ha), (table_in _ _ _ Hp), Hfile. cbn [negb].
  rewrite (validate_object _ _ Hgb).
  rewrite (missing_str _ _ _ Hver), (missing_str _ _ _ Hname),
    (missing_str _ _ _ Htmpl), Hver', Hname', Htmpl', Hpath, Howner, Hrepo.
  cbn [negb]. rewrite bind_ret_l. cbn [reported].
  rewrite !get_obj, !bind_ret_l, (field_own _ _ _ Hgb).
  rewrite !get_obj, !bind_ret_l, Hver, Hname, Htmpl.
  cbn [as_string]. rewrite !bind_ret_l.
  unfold table_entry. rewrite Ha, Hp, !bind_ret_l, strip_v_spec.
  reflexivity.
Qed.

(** C1: the scenario of the specification.  A manifest whose descriptor
    has name "mytool", path "./bin", version "v1.0.0" and asset name
    "mytool-{{platform}}-{{arch}}" (owner and repository present), parsed
    on a host reporting x64 and linux, gives options with asset name
    "mytool-linux-amd64", version "1.0.0" and binary name "mytool"; the
    tag then looked for among the releases is "v1.0.0". *)
Theorem C1_scenario (w : World) (pkg gb : list (string * value)) :
  process_arch w = "x64" ->
  process_platform w = "linux" ->
  package_json w = Parsed (JObj pkg) ->
  own pkg "goBinary" = Some (JObj gb) ->
  field gb "name" = JStr "mytool" ->
  field gb "path" = JStr "./bin" ->
  field gb "version" = JStr "v1.0.0" ->
  field gb "assetName" = JStr "mytool-{{platform}}-{{arch}}" ->
  missing gb "owner" = false ->
  missing gb "repo" = false ->
  exists opts : Options,
    parsePackageJson w = ret (Some opts) /\
    assetName opts = "mytool-linux-amd64" /\
    version opts = "1.0.0" /\
    binName opts = "mytool" /\
    binPath opts = JStr "./bin" /\
    tag_of opts = "v1.0.0".
Proof.
  intros Harch Hplat Hfile Hgb Hname Hpath Hver Htmpl Howner Hrepo.
  eexists. split.
  - eapply (parse_valid w pkg gb "amd64" "linux"); eauto.
    + rewrite Harch. reflexivity.
    + rewrite Hplat. reflexivity.
    + unfold missing. rewrite Hpath. reflexivity.
  - unfold resolved_name. rewrite Hplat, Hpath. cbn. repeat split; reflexivity.
Qed.

Lemma C1_scenario_witness :
  exists opts : Options,
    parsePackageJson sample_world = ret (Some opts) /\
    assetName opts = "mytool-linux-amd64" /\
    version opts = "1.0.0" /\
    binName opts = "mytool" /\
    binPath opts = JStr "./bin" /\
    tag_of opts = "v1.0.0".
Proof.
  apply (C1_scenario sample_world sample_manifest sample_goBinary); reflexivity.
Defined.

(** ** Required fields *)

Lemma first_missing_cases (gb : list (string * value)) :
  List.find (missing gb) required_fields =
  if missing gb "version" then Some "version"
  else if missing gb "name" then Some "name"
  else if missing gb "path" then Some "path"
  else if missing gb "owner" then Some "owner"
  else if missing gb "repo" then Some "repo"
  else if missing gb "assetName" then Some "assetName"
  else None.
Proof.
  cbn [List.find required_fields].
  repeat match goal with
         | |- context [if missing gb ?k then _ else _] =>
             destruct (missing gb k); [reflexivity|]
         end.
  reflexivity.
Qed.

Lemma validate_first_missing (pkg gb : list (string * value)) :
  own pkg "goBinary" = Some (JObj gb) ->
  match List.find (missing gb) required_fields with
  | Some f => exists msg, validateConfiguration (JObj pkg) = ret (Some msg)
                          /\ names_field msg f = true
                          /\ reported (Some msg) = true
  | None => validateConfiguration (JObj pkg) = ret None
  end.
Proof.
  intros Hgb. rewrite first_missing_cases, (validate_object _ _ Hgb).
  repeat match goal with
         | |- context [if missing gb ?k then _ else _] =>
             destruct (missing gb k); [eexists; repeat split; reflexivity|]
         end.
  reflexivity.
Qed.

(** C3: on a manifest whose [goBinary] is an object, a required field
    (version, name, path, owner, repo, assetName) that is absent or empty
    makes [validateConfiguration] return a message that names the first
    such field (the field itself when it is the only one), and parsing
    report it as an invalid configuration; when
    none of the six is absent or empty it returns no error, and on a
    supported host the parse of such a manifest (string fields) succeeds
    with the normalised descriptor. *)
Theorem C3_required_fields (w : World) (pkg gb : list (string * value)) :
  own pkg "goBinary" = Some (JObj gb) ->
  (forall f, In f required_fields -> missing gb f = true ->
     exists f' msg,
       List.find (missing gb) required_fields = Some f' /\
       missing gb f' = true /\
       ((forall g, In g required_fields -> missing gb g = true -> g = f) -> f' = f) /\
       validateConfiguration (JObj pkg) = ret (Some msg) /\
       names_field msg f' = true /\
       (forall a p, supported w a p -> package_json w = Parsed (JObj pkg) ->
          parsePackageJson w =
          ([ConsoleError ("Invalid package.json: " +:+ msg)], Ret None))) /\
  ((forall f, In f required_fields -> missing gb f = false) ->
     validateConfiguration (JObj pkg) = ret None /\
     (forall a p name path ver owner repo tmpl,
        supported w a p -> package_json w = Parsed (JObj pkg) ->
        field gb "version" = JStr ver -> field gb "name" = JStr name ->
        field gb "path" = JStr path -> field gb "owner" = JStr owner ->
        field gb "repo" = JStr repo -> field gb "assetName" = JStr tmpl ->
        parsePackageJson w =
        ret (Some {| binName := resolved_name w name;
                     binPath := JStr path;
                     version := strip_v ver;
                     auth := field gb "auth";
                     owner := JStr owner;
                     repo := JStr repo;
                     assetName :=
                       substitute a p (strip_v ver) (resolved_name w name) tmpl |}))).
Proof.
  intros Hgb. pose proof (validate_first_missing pkg gb Hgb) as Hv. split.
  - intros f Hin Hf.
    destruct (List.find (missing gb) required_fields) as [f'|] eqn:Hfind.
    + destruct Hv as (msg & Hmsg & Hnames & Hrep).
      exists f', msg. apply find_some in Hfind as Hf'. destruct Hf' as [Hin' Hf'].
      repeat split; try assumption.
      { intros Honly. apply Honly; assumption. }
      intros a p [Ha Hp] Hfile. unfold parsePackageJson.
      rewrite (table_in _ _ _ Ha), (table_in _ _ _ Hp), Hfile. cbn [negb].
      rewrite Hmsg, bind_ret_l, Hrep. reflexivity.
    + pose proof (find_none _ _ Hfind f Hin) as Hnone. congruence.
  - intros Hall. assert (Hfind : List.find (missing gb) required_fields = None).
    { rewrite first_missing_cases.
      rewrite !Hall by (cbn; tauto). reflexivity. }
    rewrite Hfind in Hv. split; [exact Hv|].
    intros a p name path ver owner repo tmpl [Ha Hp] Hfile Hver Hname Hpath Howner Hrepo Htmpl.
    assert (Hne : forall k s, In k required_fields -> field gb k = JStr s -> nonempty s = true).
    { intros k s Hk Hs. specialize (Hall k Hk). rewrite (missing_str _ _ _ Hs) in Hall.
      destruct (nonempty s); [reflexivity | discriminate]. }
    rewrite <- Hpath, <- Howner, <- Hrepo.
    eapply parse_valid; eauto; try (apply Hall; cbn; tauto);
      eapply Hne; eauto; cbn; tauto.
Qed.

Lemma C3_required_fields_witness :
  (exists f' msg,
      List.find (missing broken_goBinary) required_fields = Some f' /\
      validateConfiguration (JObj broken_manifest) = ret (Some msg) /\
      names_field msg f' = true) /\
  validateConfiguration (JObj sample_manifest) = ret None /\
  exists opts, parsePackageJson sample_world = ret (Some opts).
Proof.
  split; [|split].
  - destruct (C3_required_fields sample_world broken_manifest broken_goBinary eq_refl)
      as [Hmissing _].
    destruct (Hmissing "repo") as (f' & msg & Hfind & _ & _ & Hmsg & Hnames & _).
    + cbn. tauto.
    + reflexivity.
    + exists f', msg. repeat split; assumption.
  - destruct (C3_required_fields sample_world sample_manifest sample_goBinary eq_refl)
      as [_ Hpresent].
    apply Hpresent. intros f Hin. cbn in Hin.
    destruct Hin as [<-|[<-|[<-|[<-|[<-|[<-|[]]]]]]]; reflexivity.
  - destruct (C3_required_fields sample_world sample_manifest sample_goBinary eq_refl)
      as [_ Hpresent].
    destruct Hpresent as [_ Hparse].
    + intros f Hin. cbn in Hin.
      destruct Hin as [<-|[<-|[<-|[<-|[<-|[<-|[]]]]]]]; reflexivity.
    + eexists.
      apply (Hparse "amd64" "linux" "mytool" "./bin" "v1.0.0" "acme" "mytool"
               "mytool-{{platform}}-{{arch}}"); try reflexivity.
      split; reflexivity.
Defined.

(** ** The descriptor check *)

(** Whatever the manifest, validation never answers with the message of
    the descriptor check: when [goBinary] is absent or [null] the read of
    its [version] throws, and when it is any other value without a
    [version] the version message is returned first. *)
Lemma descriptor_check_unreachable (pkg : list (string * value)) :
  (forall gb, own pkg "goBinary" <> Some (JObj gb)) ->
  (nullish (field pkg "goBinary") = true /\
   validateConfiguration (JObj pkg) = throw TypeError) \/
  (nullish (field pkg "goBinary") = false /\
   validateConfiguration (JObj pkg) = ret (Some "'version' property must be specified")).
Proof.
  intros Hgb. unfold validateConfiguration. rewrite get_obj, bind_ret_l.
  unfold field in *. destruct (own pkg "goBinary") as [[| | | | | |gb]|]; cbn;
    try (left; split; reflexivity); try (right; split; reflexivity).
  exfalso. apply (Hgb gb). reflexivity.
Qed.

(** C4 (the code departs from it): with [goBinary] absent the read of
    [goBinary.version] throws a [TypeError] before the descriptor check
    is reached, and with [goBinary] a string the version message is
    returned instead of the descriptor message. *)
Theorem C4_descriptor_check_comes_late :
  validateConfiguration (JObj []) = throw TypeError /\
  validateConfiguration (JObj [("goBinary", JNull)]) = throw TypeError /\
  validateConfiguration (JObj [("goBinary", JStr "mytool")]) =
    ret (Some "'version' property must be specified") /\
  result (parsePackageJson
            (linux_world ["node"; "index.js"; "install"] ∅ (Parsed (JObj []))
               npm_bin_ok (Response 200 (Json sample_releases))))
  = Throw TypeError.
Proof. repeat split; reflexivity. Qed.

(** ** Looking up the release and the asset *)

Lemma get_prop (v : value) (k : string) :
  nullish v = false -> get v k = ret (prop v k).
Proof. destruct v; try discriminate; reflexivity. Qed.

(** A search whose test neither throws nor has effects is [List.find]. *)
Lemma find_pure (p : value -> M bool) (q : value -> bool) (xs : list value) :
  Forall (fun x => p x = ret (q x)) xs ->
  find p xs = ret (List.find q xs).
Proof.
  induction 1 as [|x xs Hx _ IH]; [reflexivity|].
  cbn [find List.find]. rewrite Hx, bind_ret_l.
  destruct (q x); [reflexivity | exact IH].
Qed.

Lemma is_asset_not_nullish (v : value) : is_asset v = true -> nullish v = false.
Proof. destruct v; try discriminate; reflexivity. Qed.

Lemma is_release_not_nullish (v : value) : is_release v = true -> nullish v = false.
Proof. destruct v; try discriminate; reflexivity. Qed.

Lemma find_release (tag : string) (rs : list value) :
  forallb is_release rs = true ->
  find (fun x => let* tag_name := get x "tag_name" in
                 ret (strict_eq_str tag_name tag)) rs
  = ret (first_release tag rs).
Proof.
  intros Hrs. apply find_pure. apply List.Forall_forall. intros x Hx.
  rewrite forallb_forall in Hrs.
  rewrite (get_prop x), bind_ret_l; [reflexivity|].
  apply is_release_not_nullish, Hrs, Hx.
Qed.

Lemma find_asset (name : string) (assets : list value) :
  forallb is_asset assets = true ->
  find (fun x => let* n := get x "name" in ret (strict_eq_str n name)) assets
  = ret (List.find (fun x => strict_eq_str (prop x "name") name) assets).
Proof.
  intros Has. apply find_pure. apply List.Forall_forall. intros x Hx.
  rewrite forallb_forall in Has.
  rewrite (get_prop x), bind_ret_l; [reflexivity|].
  apply is_asset_not_nullish, Has, Hx.
Qed.

Lemma release_assets (r : value) :
  is_release r = true ->
  exists assets, prop r "assets" = JArr assets /\ forallb is_asset assets = true.
Proof.
  destruct r as [| | | | | |fields]; try discriminate. cbn [is_release prop].
  destruct (field fields "assets") as [| | | | |assets|]; try discriminate.
  intros Has. exists assets. split; [reflexivity | exact Has].
Qed.

Lemma first_release_is_release (tag : string) (rs : list value) (r : value) :
  forallb is_release rs = true ->
  first_release tag rs = Some r -> is_release r = true.
Proof.
  intros Hrs Hfind. apply find_some in Hfind as [Hin _].
  rewrite forallb_forall in Hrs. apply Hrs. apply Hin.
Qed.

(** What the callback of the release request does with a well-formed
    list of releases. *)
Lemma release_response (w : World) (opts : Options) (token : option string)
    (callback : option string -> M unit) (rs : list value) :
  forallb is_release rs = true ->
  onReleaseResponse w opts token callback (Response 200 (Json (JArr rs))) =
  match first_release (tag_of opts) rs with
  | None => callback (Some ("Release with tag " +:+ tag_of opts +:+ " not found"))
  | Some r =>
      match first_asset (assetName opts) r with
      | None =>
          callback (Some ("Asset with name " +:+ assetName opts +:+ " not found"))
      | Some a => emit (Request (assetOptions opts token (prop a "id")))
      end
  end.
Proof.
  intros Hrs. unfold onReleaseResponse. cbn [Z.eqb Pos.eqb negb].
  rewrite bind_ret_l. cbn [find_in]. rewrite (find_release _ _ Hrs), bind_ret_l.
  destruct (first_release (tag_of opts) rs) as [r|] eqn:Hr; [|reflexivity].
  pose proof (first_release_is_release _ _ _ Hrs Hr) as Hwf.
  destruct (release_assets r Hwf) as (assets & Hassets & Has).
  rewrite (get_prop r _ (is_release_not_nullish r Hwf)), bind_ret_l.
  unfold first_asset. rewrite Hassets. cbn [find_in].
  rewrite (find_asset _ _ Has), bind_ret_l.
  destruct (List.find _ assets) as [a|] eqn:Ha; [|reflexivity].
  apply find_some in Ha as [Hin _]. rewrite forallb_forall in Has.
  rewrite (get_prop a _ (is_asset_not_nullish a (Has a Hin))), bind_ret_l.
  reflexivity.
Qed.

Lemma report_error (msg : string) :
  nonempty msg = true -> report (Some msg) = ([ConsoleError msg], Exited 1).
Proof. intros H. unfold report. rewrite H. reflexivity. Qed.

(** C2: given a list of releases (an array of release objects), the
    callback of the release request looks for the first release whose
    [tag_name] is exactly "v" followed by the version.  Without such a
    release it fails with the release-not-found error; with one, but no
    asset of the substituted name among its assets, it fails with the
    asset-not-found error; in both cases nothing but the error report
    happens, so no request for an asset is issued.  Otherwise it requests
    the first asset of that name. *)
Theorem C2_release_lookup (w : World) (opts : Options) (token : option string)
    (rs : list value) :
  forallb is_release rs = true ->
  tag_of opts = "v" +:+ version opts /\
  (first_release (tag_of opts) rs = None ->
     (forall callback,
        onReleaseResponse w opts token callback (Response 200 (Json (JArr rs)))
        = callback (Some ("Release with tag " +:+ tag_of opts +:+ " not found"))) /\
     onReleaseResponse w opts token report (Response 200 (Json (JArr rs)))
     = ([ConsoleError ("Release with tag " +:+ tag_of opts +:+ " not found")],
        Exited 1)) /\
  (forall r,
     first_release (tag_of opts) rs = Some r ->
     first_asset (assetName opts) r = None ->
     (forall callback,
        onReleaseResponse w opts token callback (Response 200 (Json (JArr rs)))
        = callback (Some ("Asset with name " +:+ assetName opts +:+ " not found"))) /\
     onReleaseResponse w opts token report (Response 200 (Json (JArr rs)))
     = ([ConsoleError ("Asset with name " +:+ assetName opts +:+ " not found")],
        Exited 1)) /\
  (forall r a callback,
     first_release (tag_of opts) rs = Some r ->
     first_asset (assetName opts) r = Some a ->
     onReleaseResponse w opts token callback (Response 200 (Json (JArr rs)))
     = ([Request (assetOptions opts token (prop a "id"))], Ret tt)).
Proof.
  intros Hrs. split; [reflexivity|]. split; [|split].
  - intros Hnone. split.
    + intros callback. rewrite (release_response _ _ _ _ _ Hrs), Hnone. reflexivity.
    + rewrite (release_response _ _ _ _ _ Hrs), Hnone. apply report_error. reflexivity.
  - intros r Hr Ha. split.
    + intros callback. rewrite (release_response _ _ _ _ _ Hrs), Hr, Ha. reflexivity.
    + rewrite (release_response _ _ _ _ _ Hrs), Hr, Ha. apply report_error. reflexivity.
  - intros r a callback Hr Ha.
    rewrite (release_response _ _ _ _ _ Hrs), Hr, Ha. reflexivity.
Qed.

Lemma C2_release_lookup_witness :
  onReleaseResponse sample_world sample_options None report
    (Response 200 (Json (JArr sample_release_list)))
  = ([Request (assetOptions sample_options None (prop sample_asset "id"))], Ret tt) /\
  onReleaseResponse sample_world sample_options None report
    (Response 200 (Json (JArr [])))
  = ([ConsoleError ("Release with tag " +:+ tag_of sample_options +:+ " not found")],
     Exited 1).
Proof.
  split.
  - destruct (C2_release_lookup sample_world sample_options None
                sample_release_list eq_refl) as (_ & _ & _ & Hfound).
    apply (Hfound sample_release sample_asset report); reflexivity.
  - destruct (C2_release_lookup sample_world sample_options None [] eq_refl)
      as (_ & Hnone & _).
    apply Hnone. reflexivity.
Defined.

(** ** Template substitution *)

Lemma append_cons (c : ascii) (s t : string) :
  String c s +:+ t = String c (s +:+ t).
Proof. reflexivity. Qed.

Lemma append_nil (t : string) : "" +:+ t = t.
Proof. reflexivity. Qed.

Lemma prefix_mismatch (c d : ascii) (pat s : string) :
  Ascii.eqb d c = false -> String.prefix (String c pat) (String d s) = false.
Proof.
  intros Hcd. cbn [String.prefix]. destruct (ascii_dec c d) as [->|_]; [|reflexivity].
  rewrite Ascii.eqb_refl in Hcd. discriminate.
Qed.

Lemma prefix_append (pat s : string) : String.prefix pat (pat +:+ s) = true.
Proof.
  induction pat as [|c pat IH]; [destruct s; reflexivity|].
  rewrite append_cons. cbn [String.prefix].
  destruct (ascii_dec c c); [exact IH | congruence].
Qed.

(** Without a match a scan copies its input. *)
Lemma replace_scan_no_match (pat repl : string) (s : string) :
  occurs pat s = false ->
  forall before, replace_scan pat repl 0 before s = s.
Proof.
  induction s as [|c s IH]; intros Hocc before; [reflexivity|].
  cbn [occurs] in Hocc. apply orb_false_iff in Hocc as [Hpre Hocc].
  cbn [replace_scan]. rewrite Hpre. f_equal. apply IH, Hocc.
Qed.

Lemma replace_all_no_match (pat repl s : string) :
  occurs pat s = false -> replace_all pat repl s = s.
Proof. intros H. apply replace_scan_no_match, H. Qed.

(** A replacement without dollar signs is inserted as it is. *)
Lemma GetSubstitution_dollar_free (matched before after repl : string) :
  dollar_free repl = true -> GetSubstitution matched before after repl = repl.
Proof.
  induction repl as [|c r IH]; [reflexivity|].
  unfold dollar_free. cbn [all_chars]. intros H.
  apply andb_true_iff in H as [Hc Hr]. unfold is_dollar in Hc.
  cbn [GetSubstitution]. destruct (Ascii.eqb c "$"); [discriminate|].
  f_equal. apply IH, Hr.
Qed.

(** Then the text already passed plays no part. *)
Lemma replace_scan_before (pat repl : string) (s : string) :
  dollar_free repl = true ->
  forall skip before, replace_scan pat repl skip before s
                      = replace_scan pat repl skip [] s.
Proof.
  intros Hrepl. induction s as [|c s IH]; intros skip before; [reflexivity|].
  cbn [replace_scan]. destruct skip as [|k].
  - rewrite !(GetSubstitution_dollar_free _ _ _ _ Hrepl).
    rewrite (IH _ (c :: before)), (IH _ [c]), (IH 0%nat (c :: before)), (IH 0%nat [c]).
    reflexivity.
  - rewrite (IH _ (c :: before)), (IH _ [c]). reflexivity.
Qed.

Lemma replace_all_step (pat repl : string) (c : ascii) (s : string) :
  dollar_free repl = true ->
  String.prefix pat (String c s) = false ->
  replace_all pat repl (String c s) = String c (replace_all pat repl s).
Proof.
  intros Hrepl Hpre. unfold replace_all. cbn [replace_scan]. rewrite Hpre.
  f_equal. apply replace_scan_before, Hrepl.
Qed.

Lemma replace_scan_skip (pat repl x s : string) :
  dollar_free repl = true ->
  replace_scan pat repl (String.length x) [] (x +:+ s) = replace_all pat repl s.
Proof.
  intros Hrepl. induction x as [|c x IH]; [reflexivity|].
  rewrite append_cons. cbn [replace_scan String.length].
  rewrite (replace_scan_before _ _ _ Hrepl). exact IH.
Qed.

Lemma replace_all_match (c : ascii) (pat repl s : string) :
  dollar_free repl = true ->
  replace_all (String c pat) repl (String c pat +:+ s)
  = repl +:+ replace_all (String c pat) repl s.
Proof.
  intros Hrepl. unfold replace_all at 1. rewrite append_cons. cbn [replace_scan].
  rewrite <- append_cons, prefix_append.
  rewrite (GetSubstitution_dollar_free _ _ _ _ Hrepl). f_equal.
  cbn [String.length]. rewrite Nat.sub_succ, Nat.sub_0_r.
  rewrite (replace_scan_before _ _ _ Hrepl). apply replace_scan_skip, Hrepl.
Qed.

(** Literal text without braces is copied: every pattern starts with a
    brace. *)
Lemma replace_all_text (pat repl s rest : string) :
  dollar_free repl = true ->
  brace_free s = true ->
  replace_all (String "{" pat) repl (s +:+ rest)
  = s +:+ replace_all (String "{" pat) repl rest.
Proof.
  intros Hrepl. induction s as [|c s IH]; intros Hs; [reflexivity|].
  unfold brace_free in Hs. cbn [all_chars] in Hs.
  apply andb_true_iff in Hs as [Hc Hs].
  rewrite !append_cons, replace_all_step; [f_equal; apply IH, Hs | exact Hrepl |].
  apply prefix_mismatch. unfold is_brace in Hc.
  destruct (Ascii.eqb c "{"); [discriminate | reflexivity].
Qed.

(** A placeholder other than the one looked for is copied. *)
Lemma replace_all_other (p q : placeholder) (repl rest : string) :
  dollar_free repl = true ->
  placeholder_eqb p q = false ->
  replace_all (token q) repl (token p +:+ rest)
  = token p +:+ replace_all (token q) repl rest.
Proof.
  intros Hrepl Hpq.
  destruct p, q; try discriminate; cbn [token];
    rewrite !append_cons, append_nil;
    repeat (rewrite replace_all_step by (exact Hrepl || reflexivity));
    reflexivity.
Qed.

Lemma token_cons (ph : placeholder) : exists pat, token ph = String "{" pat.
Proof. destruct ph; eexists; reflexivity. Qed.

Lemma placeholder_eqb_eq (p q : placeholder) : placeholder_eqb p q = true -> p = q.
Proof. destruct p, q; try discriminate; reflexivity. Qed.

(** One pass resolves one placeholder throughout a well-formed template. *)
Lemma replace_all_render (q : placeholder) (val : string) (t : list segment) :
  dollar_free val = true ->
  well_formed t = true ->
  replace_all (token q) val (render t) = render (map (resolve q val) t).
Proof.
  intros Hval. induction t as [|seg t IH]; intros Ht; [reflexivity|].
  cbn [well_formed forallb] in Ht. apply andb_true_iff in Ht as [Hseg Ht].
  cbn [render map]. destruct seg as [s|p]; cbn [resolve segment_text].
  - destruct (token_cons q) as [pat Hq]. rewrite Hq.
    rewrite (replace_all_text _ _ _ _ Hval Hseg), <- Hq. f_equal. apply IH, Ht.
  - destruct (placeholder_eqb p q) eqn:Hpq; cbn [segment_text].
    + apply placeholder_eqb_eq in Hpq as ->.
      destruct (token_cons q) as [pat Hq]. rewrite Hq.
      rewrite (replace_all_match _ _ _ _ Hval), <- Hq. f_equal. apply IH, Ht.
    + rewrite (replace_all_other _ _ _ _ Hval Hpq). f_equal. apply IH, Ht.
Qed.

Lemma resolve_well_formed (q : placeholder) (val : string) (t : list segment) :
  brace_free val = true -> well_formed t = true ->
  well_formed (map (resolve q val) t) = true.
Proof.
  intros Hval. induction t as [|seg t IH]; intros Ht; [reflexivity|].
  cbn [well_formed forallb] in Ht. apply andb_true_iff in Ht as [Hseg Ht].
  cbn [map well_formed forallb]. fold (well_formed (map (resolve q val) t)).
  rewrite (IH Ht), andb_true_r.
  destruct seg as [s|p]; cbn [resolve]; [exact Hseg|].
  destruct (placeholder_eqb p q); [exact Hval | reflexivity].
Qed.

Lemma resolve_all (a p v b : string) (t : list segment) :
  render (map (resolve PBinName b)
            (map (resolve PVersion v)
               (map (resolve PPlatform p) (map (resolve PArch a) t))))
  = fill a p v b t.
Proof.
  unfold fill. rewrite !map_map. f_equal. apply map_ext.
  intros [s|[]]; reflexivity.
Qed.

Lemma plain_brace_free (s : string) : plain s = true -> brace_free s = true.
Proof. unfold plain. intros H. apply andb_true_iff in H. tauto. Qed.

Lemma plain_dollar_free (s : string) : plain s = true -> dollar_free s = true.
Proof. unfold plain. intros H. apply andb_true_iff in H. tauto. Qed.

(** The four passes on a well-formed template fill in every placeholder. *)
Lemma substitute_render (a p v b : string) (t : list segment) :
  plain a = true -> plain p = true -> plain v = true -> plain b = true ->
  well_formed t = true ->
  substitute a p v b (render t) = fill a p v b t.
Proof.
  intros Ha Hp Hv Hb Ht. unfold substitute.
  change "{{arch}}" with (token PArch). change "{{platform}}" with (token PPlatform).
  change "{{version}}" with (token PVersion). change "{{bin_name}}" with (token PBinName).
  rewrite (replace_all_render PArch), (replace_all_render PPlatform),
    (replace_all_render PVersion), (replace_all_render PBinName);
    auto using plain_dollar_free, plain_brace_free, resolve_well_formed.
  apply resolve_all.
Qed.

Lemma all_chars_append (f : ascii -> bool) (s t : string) :
  all_chars f (s +:+ t) = all_chars f s && all_chars f t.
Proof.
  induction s as [|c s IH]; [reflexivity|].
  rewrite append_cons. cbn [all_chars]. rewrite IH, andb_assoc. reflexivity.
Qed.

Lemma brace_free_render_texts (t : list segment) :
  forallb (fun seg => match seg with
                      | Text s => brace_free s
                      | Hole _ => false
                      end) t = true ->
  brace_free (render t) = true.
Proof.
  induction t as [|seg t IH]; [reflexivity|].
  cbn [forallb render]. intros H. apply andb_true_iff in H as [Hseg Ht].
  unfold brace_free. rewrite all_chars_append. apply andb_true_iff. split.
  - destruct seg; [exact Hseg | discriminate].
  - apply IH, Ht.
Qed.

Lemma brace_free_fill (a p v b : string) (t : list segment) :
  brace_free a = true -> brace_free p = true ->
  brace_free v = true -> brace_free b = true ->
  well_formed t = true ->
  brace_free (fill a p v b t) = true.
Proof.
  intros Ha Hp Hv Hb Ht. apply brace_free_render_texts.
  induction t as [|seg t IH]; [reflexivity|].
  cbn [well_formed forallb] in Ht. apply andb_true_iff in Ht as [Hseg Ht].
  cbn [map forallb]. rewrite (IH Ht), andb_true_r.
  destruct seg as [s|[]]; assumption.
Qed.

(** A string without braces holds no placeholder. *)
Lemma brace_free_resolved (s : string) : brace_free s = true -> resolved s.
Proof.
  intros Hs ph. destruct (token_cons ph) as [pat ->].
  induction s as [|c s IH]; [reflexivity|].
  unfold brace_free in Hs. cbn [all_chars] in Hs.
  apply andb_true_iff in Hs as [Hc Hs].
  cbn [occurs]. rewrite (IH Hs), orb_false_r.
  apply prefix_mismatch. unfold is_brace in Hc.
  destruct (Ascii.eqb c "{"); [discriminate | reflexivity].
Qed.

(** On a string without placeholders the four passes change nothing. *)
Lemma substitute_resolved (a p v b s : string) :
  resolved s -> substitute a p v b s = s.
Proof.
  intros Hs. unfold substitute.
  rewrite (replace_all_no_match "{{arch}}" a s (Hs PArch)).
  rewrite (replace_all_no_match "{{platform}}" p s (Hs PPlatform)).
  rewrite (replace_all_no_match "{{version}}" v s (Hs PVersion)).
  apply (replace_all_no_match "{{bin_name}}" b s (Hs PBinName)).
Qed.

(** The entries of the two tables hold neither braces nor dollar signs. *)
Lemma arch_plain (k a : string) : ARCH_MAPPING !! k = Some a -> plain a = true.
Proof.
  intros H. apply elem_of_list_to_map_2 in H.
  repeat (apply elem_of_cons in H as [H|H]; [injection H as _ ->; reflexivity|]).
  apply elem_of_nil in H. destruct H.
Qed.

Lemma platform_plain (k p : string) :
  PLATFORM_MAPPING !! k = Some p -> plain p = true.
Proof.
  intros H. apply elem_of_list_to_map_2 in H.
  repeat (apply elem_of_cons in H as [H|H]; [injection H as _ ->; reflexivity|]).
  apply elem_of_nil in H. destruct H.
Qed.

(** C5, as the code has it: the four passes leave a string without
    placeholders unchanged, so substitution is idempotent on every
    template whose first pass leaves no placeholder; and on a supported
    host, with a version and a binary name free of braces and dollar
    signs, the first pass over a template made of brace-free text and
    placeholders replaces every placeholder by its value, leaves no
    placeholder behind, and a second pass changes nothing. *)
Theorem C5_substitution (w : World) (a p v b : string) :
  (forall s, resolved s -> substitute a p v b s = s) /\
  (forall tmpl,
     resolved (substitute a p v b tmpl) ->
     substitute a p v b (substitute a p v b tmpl) = substitute a p v b tmpl) /\
  (supported w a p -> plain v = true -> plain b = true ->
   forall t, well_formed t = true ->
     substitute a p v b (render t) = fill a p v b t /\
     resolved (substitute a p v b (render t)) /\
     substitute a p v b (substitute a p v b (render t))
     = substitute a p v b (render t)).
Proof.
  split; [|split].
  - intros s. apply substitute_resolved.
  - intros tmpl. apply substitute_resolved.
  - intros [Ha Hp] Hv Hb t Ht.
    apply arch_plain in Ha. apply platform_plain in Hp.
    assert (Hres : resolved (substitute a p v b (render t))).
    { rewrite (substitute_render a p v b t Ha Hp Hv Hb Ht).
      apply brace_free_resolved.
      apply brace_free_fill; auto using plain_brace_free. }
    split; [|split].
    + apply substitute_render; assumption.
    + exact Hres.
    + apply substitute_resolved, Hres.
Qed.

Lemma C5_substitution_witness :
  substitute "amd64" "linux" "1.0.0" "mytool"
    (render [Text "mytool-"; Hole PPlatform; Text "-"; Hole PArch])
  = fill "amd64" "linux" "1.0.0" "mytool"
      [Text "mytool-"; Hole PPlatform; Text "-"; Hole PArch] /\
  substitute "amd64" "linux" "1.0.0" "mytool"
    (substitute "amd64" "linux" "1.0.0" "mytool"
       (render [Text "mytool-"; Hole PPlatform; Text "-"; Hole PArch]))
  = substitute "amd64" "linux" "1.0.0" "mytool"
      (render [Text "mytool-"; Hole PPlatform; Text "-"; Hole PArch]).
Proof.
  destruct (C5_substitution sample_world "amd64" "linux" "1.0.0" "mytool")
    as (_ & _ & Hfill).
  destruct (Hfill (conj eq_refl eq_refl) eq_refl eq_refl
              [Text "mytool-"; Hole PPlatform; Text "-"; Hole PArch] eq_refl)
    as (H1 & _ & H3).
  split; [exact H1 | exact H3].
Defined.

(** C5 as worded fails: with the version "{{arch}}" the pass over the
    template "{{bin_name}}-{{version}}" leaves the placeholder of the
    architecture behind, and a second pass changes the string. *)
Lemma C5_counterexample :
  substitute "amd64" "linux" "{{arch}}" "tool" "{{bin_name}}-{{version}}"
  = "tool-{{arch}}" /\
  occurs "{{arch}}"
    (substitute "amd64" "linux" "{{arch}}" "tool" "{{bin_name}}-{{version}}") = true /\
  substitute "amd64" "linux" "{{arch}}" "tool"
    (substitute "amd64" "linux" "{{arch}}" "tool" "{{bin_name}}-{{version}}")
  <> substitute "amd64" "linux" "{{arch}}" "tool" "{{bin_name}}-{{version}}".
Proof.
  split; [reflexivity | split; [reflexivity|]].
  intros H. vm_compute in H. discriminate H.
Qed.

(** ** The installation path *)

(** [getInstallationPath] runs [npm bin] and then calls back, once. *)
Lemma installation_path_once (w : World) :
  exists dir,
    forall A (callback : option string -> string -> M A),
      getInstallationPath w callback
      = (Exec "npm bin" :: events (callback None dir), result (callback None dir)).
Proof.
  unfold getInstallationPath. eexists. intros A callback.
  rewrite bind_emit. reflexivity.
Qed.

(** C6 (the code departs from it): [npm bin] ends without error, with
    nothing on its standard error and with an output that is not empty
    but blank, and [npm_config_prefix] is set.  The first strategy
    yields no directory, yet the second is not tried: the callback
    receives the [node_modules/.bin] directory under the working
    directory, neither the trimmed output nor the prefix joined with
    "bin".  With an output that is empty, in the same environment, the
    prefix is used. *)
Theorem C6_blank_output_skips_prefix :
  exec_err (npm_bin blank_world) = false /\
  stderr (npm_bin blank_world) = "" /\
  stdout (npm_bin blank_world) <> "" /\
  trim (stdout (npm_bin blank_world)) = "" /\
  process_env blank_world !! "npm_config_prefix" = Some "/usr/local" /\
  getInstallationPath blank_world (fun _ dir => ret dir)
  = ([Exec "npm bin"], Ret (path_join blank_world (process_cwd blank_world)
                              "node_modules/.bin")) /\
  path_join blank_world (process_cwd blank_world) "node_modules/.bin"
  <> path_join blank_world "/usr/local" "bin" /\
  process_env empty_world = process_env blank_world /\
  getInstallationPath empty_world (fun _ dir => ret dir)
  = ([Exec "npm bin"], Ret (path_join empty_world "/usr/local" "bin")).
Proof.
  repeat (split; [first [reflexivity | discriminate]|]). reflexivity.
Qed.

(** ** Uninstalling *)

Lemma delete_binary_some (w : World) (opts : Options) (dir : string) :
  delete_binary w (Some opts) dir = unlinkSync w (path_join w dir (binName opts)).
Proof. unfold delete_binary. rewrite bind_ret_l. reflexivity. Qed.

Lemma try_unlink (w : World) (file : string) :
  try_catch (unlinkSync w file) (fun _ => ret tt) = (deletion w file, Ret tt).
Proof. unfold unlinkSync, deletion. destruct (unlink_error w file); reflexivity. Qed.

Lemma bind_events {A B} (l : list event) (a : A) (k : A -> M B) :
  bind (l, Ret a) k = (l ++ events (k a), result (k a)).
Proof. unfold bind. destruct (k a). reflexivity. Qed.

(** C7: with a manifest that parses to options, [uninstall] attempts
    the deletion of the binary in the installation directory and then
    calls back with [null], whether the deletion succeeded or raised an
    error (the file being absent included); the script then exits with
    code 0. *)
Theorem C7_uninstall_swallows (w : World) (l : list event) (opts : Options) :
  parsePackageJson w = (l, Ret (Some opts)) ->
  exists dir,
    (forall callback,
       uninstall w callback
       = (l ++ Exec "npm bin" :: deletion w (path_join w dir (binName opts))
            ++ events (callback None),
          result (callback None))) /\
    (forall code, unlink_error w (path_join w dir (binName opts)) = Some code ->
       uninstall w report = (l ++ [Exec "npm bin"], Exited 0)) /\
    (unlink_error w (path_join w dir (binName opts)) = None ->
       uninstall w report
       = (l ++ [Exec "npm bin"; Unlink (path_join w dir (binName opts))], Exited 0)).
Proof.
  intros Hparse. destruct (installation_path_once w) as [dir Hdir]. exists dir.
  assert (Hrun : forall callback,
            uninstall w callback
            = (l ++ Exec "npm bin" :: deletion w (path_join w dir (binName opts))
                 ++ events (callback None),
               result (callback None))).
  { intros callback. unfold uninstall. rewrite Hparse, bind_events, Hdir.
    rewrite bind_ret_l, delete_binary_some, try_unlink, bind_events.
    reflexivity. }
  split; [exact Hrun|]. split.
  - intros code Hcode. rewrite Hrun. unfold deletion. rewrite Hcode. reflexivity.
  - intros Hok. rewrite Hrun. unfold deletion. rewrite Hok. reflexivity.
Qed.

Lemma C7_uninstall_swallows_witness :
  uninstall uninstall_world report = ([Exec "npm bin"], Exited 0).
Proof.
  destruct (C7_uninstall_swallows uninstall_world [] sample_options eq_refl)
    as (dir & Hrun & _).
  rewrite Hrun. reflexivity.
Defined.

(** When [parsePackageJson] throws (a manifest that is not JSON, a
    manifest without [goBinary]), [uninstall] stops there: the exception
    is not caught and the callback is not called. *)
Lemma uninstall_parse_throws (w : World) (l : list event) (e : exn)
    (callback : option string -> M unit) :
  parsePackageJson w = (l, Throw e) -> uninstall w callback = (l, Throw e).
Proof. intros Hparse. unfold uninstall. rewrite Hparse. reflexivity. Qed.

(** C10, as the code has it: when [parsePackageJson] returns no options
    (the architecture or the platform is unsupported, the manifest is
    missing, or validation reports a missing field), [uninstall] goes on
    all the same.  Reading [binName] from the missing options throws
    inside the callback of [getInstallationPath], within the [try]
    block; nothing is deleted and the callback of [uninstall] is called
    with [null] only, never with an error, so the script ends with exit
    code 0 instead of reporting a failure with exit code 1.  When
    [parsePackageJson] throws instead (a manifest that is not JSON),
    the exception leaves [uninstall] before [getInstallationPath] is
    called: nothing catches it and the callback is not called. *)
Theorem C10_uninstall_without_options (w : World) :
  (js_in (process_arch w) ARCH_MAPPING = false \/
   js_in (process_platform w) PLATFORM_MAPPING = false \/
   package_json w = Missing ->
   exists line, parsePackageJson w = ([ConsoleError line], Ret None)) /\
  (forall packageJson msg,
     js_in (process_arch w) ARCH_MAPPING = true ->
     js_in (process_platform w) PLATFORM_MAPPING = true ->
     package_json w = Parsed packageJson ->
     validateConfiguration packageJson = ret (Some msg) -> msg <> "" ->
     parsePackageJson w = ([ConsoleError ("Invalid package.json: " +:+ msg)], Ret None)) /\
  (js_in (process_arch w) ARCH_MAPPING = true ->
   js_in (process_platform w) PLATFORM_MAPPING = true ->
   package_json w = Malformed ->
   parsePackageJson w = ([], Throw SyntaxError)) /\
  (forall l,
     parsePackageJson w = (l, Ret None) ->
     (forall dir, delete_binary w None dir = throw TypeError) /\
     (forall callback,
        uninstall w callback
        = (l ++ Exec "npm bin" :: events (callback None), result (callback None))) /\
     uninstall w report = (l ++ [Exec "npm bin"], Exited 0) /\
     (forall a0 a1 rest,
        process_argv w = a0 :: a1 :: "uninstall" :: rest ->
        main w = (l ++ [Exec "npm bin"], Exited 0))) /\
  (forall l e,
     parsePackageJson w = (l, Throw e) ->
     (forall callback, uninstall w callback = (l, Throw e)) /\
     (forall a0 a1 rest,
        process_argv w = a0 :: a1 :: "uninstall" :: rest ->
        main w = (l, Throw e))).
Proof.
  split; [|split; [|split; [|split]]].
  - intros Hcause. unfold parsePackageJson.
    destruct (js_in (process_arch w) ARCH_MAPPING); cbn [negb];
      [|eexists; reflexivity].
    destruct (js_in (process_platform w) PLATFORM_MAPPING); cbn [negb];
      [|eexists; reflexivity].
    destruct Hcause as [H|[H|H]]; try discriminate H.
    rewrite H. eexists. reflexivity.
  - intros packageJson msg Harch Hplat Hfile Hmsg Hne. unfold parsePackageJson.
    rewrite Harch, Hplat, Hfile, Hmsg, bind_ret_l. cbn [negb reported].
    destruct msg as [|c msg]; [congruence | reflexivity].
  - intros Harch Hplat Hfile. unfold parsePackageJson.
    rewrite Harch, Hplat, Hfile. reflexivity.
  - intros l Hparse. destruct (installation_path_once w) as [dir Hdir].
    assert (Hrun : forall callback,
              uninstall w callback
              = (l ++ Exec "npm bin" :: events (callback None), result (callback None))).
    { intros callback. unfold uninstall. rewrite Hparse, bind_events, Hdir.
      rewrite bind_ret_l. unfold delete_binary. rewrite bind_throw.
      cbn [throw try_catch ret app]. rewrite bind_events. reflexivity. }
    split; [reflexivity|]. split; [exact Hrun|].
    assert (Hreport : uninstall w report = (l ++ [Exec "npm bin"], Exited 0)).
    { rewrite Hrun. reflexivity. }
    split; [exact Hreport|].
    intros a0 a1 rest Hargv. unfold main. rewrite Hargv.
    change (actions !! "uninstall") with (Some Uninstall). exact Hreport.
  - intros l e Hparse. split.
    + intros callback. apply uninstall_parse_throws, Hparse.
    + intros a0 a1 rest Hargv. unfold main. rewrite Hargv.
      change (actions !! "uninstall") with (Some Uninstall).
      apply (uninstall_parse_throws w l e report Hparse).
Qed.

Lemma C10_uninstall_without_options_witness :
  main missing_world
  = ([ConsoleError ("Unable to find package.json. " +:+
        "Please run this script at root of the package you want to be installed");
      Exec "npm bin"], Exited 0) /\
  main malformed_world = ([], Throw SyntaxError).
Proof.
  split.
  - destruct (C10_uninstall_without_options missing_world)
      as (_ & _ & _ & Hnone & _).
    destruct (Hnone
                [ConsoleError ("Unable to find package.json. " +:+
                   "Please run this script at root of the package you want to be installed")]
                eq_refl) as (_ & _ & _ & Hmain).
    apply (Hmain "node" "index.js" []). reflexivity.
  - destruct (C10_uninstall_without_options malformed_world)
      as (_ & _ & Hmal & _ & Hthrow).
    destruct (Hthrow [] SyntaxError (Hmal eq_refl eq_refl eq_refl)) as [_ Hmain].
    apply (Hmain "node" "index.js" []). reflexivity.
Defined.

(** C10 as worded fails: a manifest that is not JSON is one of the
    cases the claim lists, but there [parsePackageJson] throws instead
    of yielding nothing; [npm bin] is never run, so nothing faults inside
    the callback of [getInstallationPath]: the script ends with the
    uncaught [SyntaxError]. *)
Lemma C10_counterexample :
  package_json malformed_world = Malformed /\
  process_argv malformed_world = ["node"; "index.js"; "uninstall"] /\
  parsePackageJson malformed_world = ([], Throw SyntaxError) /\
  main malformed_world = ([], Throw SyntaxError) /\
  ~ In (Exec "npm bin") (events (main malformed_world)).
Proof.
  repeat (split; [reflexivity|]). intros [].
Qed.

(** ** Installing without a token *)

(** With [auth] set and no token in the environment, [install] logs the
    request for a token and returns: no request is made, and the
    callback is not called. *)
Lemma install_missing_token (w : World) (opts : Options) (dir : string)
    (callback : option string -> M unit) :
  parsePackageJson w = ret (Some opts) ->
  binPath opts = JStr dir -> mkdirp_error w dir = None ->
  truthy (auth opts) = true ->
  process_env w !! "GITHUB_TOKEN" = None \/ process_env w !! "GITHUB_TOKEN" = Some "" ->
  install w callback = ([Mkdirp dir; ConsoleError missing_token], Ret tt).
Proof.
  intros Hparse Hdir Hmk Hauth Htoken. unfold install.
  rewrite Hparse, bind_ret_l. unfold mkdirp_sync. rewrite Hdir, Hmk, bind_emit, Hauth.
  destruct Htoken as [-> | ->]; reflexivity.
Qed.

(** Without [auth], [install] creates the extraction directory, asks
    for the list of releases and hands the reply to [onReleaseResponse]. *)
Lemma install_requests_releases (w : World) (opts : Options) (dir : string)
    (callback : option string -> M unit) :
  parsePackageJson w = ret (Some opts) ->
  binPath opts = JStr dir -> mkdirp_error w dir = None ->
  truthy (auth opts) = false ->
  install w callback
  = (Mkdirp dir :: Request (releasesOptions opts None)
       :: events (onReleaseResponse w opts None callback (releases_reply w)),
     result (onReleaseResponse w opts None callback (releases_reply w))).
Proof.
  intros Hparse Hdir Hmk Hauth. unfold install.
  rewrite Hparse, bind_ret_l. unfold mkdirp_sync.
  rewrite Hdir, Hmk, bind_emit, Hauth. cbn [andb].
  rewrite bind_emit. reflexivity.
Qed.

Example install_sample :
  main sample_world
  = ([Mkdirp "./bin"; Request (releasesOptions sample_options None);
      Request (assetOptions sample_options None (JNum 12))], Ret tt).
Proof. reflexivity. Qed.

Example install_release_not_found :
  main (linux_world ["node"; "index.js"; "install"] ∅ (Parsed (JObj sample_manifest))
          npm_bin_ok (Response 200 (Json (JArr []))))
  = ([Mkdirp "./bin"; Request (releasesOptions sample_options None);
      ConsoleError "Release with tag v1.0.0 not found"], Exited 1).
Proof. reflexivity. Qed.

(** C8 (the code departs from it): with [auth] set and no token, the
    script creates the extraction directory, logs the request for a
    token on standard error and issues no request, but it returns
    without calling back: [process.exit(1)] is not reached. *)
Theorem C8_missing_token_run :
  truthy (prop (prop (JObj auth_manifest) "goBinary") "auth") = true /\
  process_env auth_world !! "GITHUB_TOKEN" = None /\
  main auth_world = ([Mkdirp "./bin"; ConsoleError missing_token], Ret tt) /\
  result (main auth_world) <> Exited 1.
Proof.
  split; [reflexivity|]. split; [reflexivity|]. split; [reflexivity|].
  discriminate.
Qed.

(** ** The command line *)

Lemma actions_unknown (cmd : string) :
  cmd <> "install" -> cmd <> "uninstall" -> actions !! cmd = None.
Proof.
  intros Hi Hu. unfold actions. apply not_elem_of_list_to_map_1.
  cbn. rewrite !not_elem_of_cons. repeat split; try assumption.
  apply not_elem_of_nil.
Qed.

(** A command other than "install" and "uninstall" (and other than the
    names every object inherits) gets the usage message, written with
    [console.log], and exit code 1. *)
Lemma unknown_command_run (w : World) (a0 a1 cmd : string) (rest : list string) :
  process_argv w = a0 :: a1 :: cmd :: rest ->
  cmd <> "install" -> cmd <> "uninstall" -> inherited cmd = false ->
  main w = ([ConsoleLog usage], Exited 1).
Proof.
  intros Hargv Hi Hu Hproto. unfold main.
  rewrite Hargv, (actions_unknown cmd Hi Hu), Hproto. reflexivity.
Qed.

(** C9 (the code departs from it): for the command "help" the script
    exits with code 1, but the usage message is written with
    [console.log], to the standard output; nothing is written to the
    standard error. *)
Theorem C9_usage_on_stdout :
  process_argv help_world = ["node"; "index.js"; "help"] /\
  main help_world = ([ConsoleLog usage], Exited 1) /\
  ~ (exists line, In (ConsoleError line) (events (main help_world))).
Proof.
  split; [reflexivity|].
  assert (Hrun : main help_world = ([ConsoleLog usage], Exited 1)).
  { apply (unknown_command_run help_world "node" "index.js" "help" []);
      [reflexivity | discriminate | discriminate | reflexivity]. }
  split; [exact Hrun|]. rewrite Hrun.
  intros [line [H|[]]]. discriminate H.
Qed.

(** * Further properties of the script *)

(** ** Runs and their traces *)

Lemma always_ret {A} (E : event -> Prop) (C : Z -> Prop) (a : A) : always E C (ret a).
Proof. split; [constructor | discriminate]. Qed.

Lemma always_throw {A} (E : event -> Prop) (C : Z -> Prop) (e : exn) :
  always E C (@throw A e).
Proof. split; [constructor | discriminate]. Qed.

Lemma always_unmodelled {A} (E : event -> Prop) (C : Z -> Prop) :
  always E C (@unmodelled A).
Proof. split; [constructor | discriminate]. Qed.

Lemma always_emit (E : event -> Prop) (C : Z -> Prop) (e : event) :
  E e -> always E C (emit e).
Proof. intros He. split; [repeat constructor; exact He | discriminate]. Qed.

Lemma always_exit {A} (E : event -> Prop) (C : Z -> Prop) (code : Z) :
  C code -> always E C (@process_exit A code).
Proof. intros Hc. split; [constructor|]. intros c [= <-]. exact Hc. Qed.

Lemma always_bind {A B} (E : event -> Prop) (C : Z -> Prop) (m : M A) (k : A -> M B) :
  always E C m -> (forall a, result m = Ret a -> always E C (k a)) ->
  always E C (bind m k).
Proof.
  destruct m as [l [a| e | c |]]; intros [Hl Hc] Hk; cbn [bind].
  - destruct (Hk a eq_refl) as [Hl' Hc']. destruct (k a) as [l' o].
    split; [apply Forall_app; split; assumption | exact Hc'].
  - split; [exact Hl | discriminate].
  - split; [exact Hl|]. intros code [= <-]. apply Hc. reflexivity.
  - split; [exact Hl | discriminate].
Qed.

Lemma always_get (E : event -> Prop) (C : Z -> Prop) (v : value) (k : string) :
  always E C (get v k).
Proof. destruct v; first [apply always_ret | apply always_throw]. Qed.

Lemma always_weaken {A} (E E' : event -> Prop) (C C' : Z -> Prop) (m : M A) :
  (forall e, E e -> E' e) -> (forall c, C c -> C' c) ->
  always E C m -> always E' C' m.
Proof.
  intros HE HC [Hl Hc]. split; [|intros c Hr; apply HC, Hc, Hr].
  induction Hl; constructor; auto.
Qed.

(** A run without events that does not end the process. *)
Lemma always_silent {A} (m : M A) :
  always (fun _ => False) (fun _ => False) m ->
  events m = [] /\ forall code, result m <> Exited code.
Proof.
  intros [Hl Hc]. split; [|intros code Hr; exact (Hc code Hr)].
  destruct Hl as [|e l He _]; [reflexivity | destruct He].
Qed.

Lemma always_as_string (E : event -> Prop) (C : Z -> Prop) (v : value) :
  always E C (as_string v).
Proof. destruct v; first [apply always_ret | apply always_unmodelled]. Qed.

Lemma always_table_entry (E : event -> Prop) (C : Z -> Prop)
    (table : gmap string string) (k : string) :
  always E C (table_entry table k).
Proof.
  unfold table_entry. destruct (table !! k);
    first [apply always_ret | apply always_unmodelled].
Qed.

Ltac always_step :=
  first [ apply always_ret | apply always_throw | apply always_unmodelled
        | apply always_get | apply always_as_string | apply always_table_entry
        | apply always_bind; [|intros ? _]
        | match goal with
          | |- always _ _ (if ?b then _ else _) => destruct b
          | |- always _ _ (match ?x with _ => _ end) => destruct x
          end ].

(** ** Validation, in general *)

Lemma validate_always (E : event -> Prop) (C : Z -> Prop) (packageJson : value) :
  always E C (validateConfiguration packageJson).
Proof. unfold validateConfiguration. repeat always_step. Qed.

Lemma validate_result (packageJson : value) :
  result (validateConfiguration packageJson) = Throw TypeError \/
  In (result (validateConfiguration packageJson))
     [ Ret (Some "'version' property must be specified");
       Ret (Some "'name' property is necessary");
       Ret (Some "'path' property is necessary");
       Ret (Some "'owner' property is necessary");
       Ret (Some "'repo' property is necessary");
       Ret (Some "'assetName' property is required");
       Ret None ].
Proof.
  destruct packageJson as [| | | | | |pkg]; try (left; reflexivity).
  destruct (own pkg "goBinary") as [gb|] eqn:Hown.
  - destruct gb as [| | | | | |gb];
      try (destruct (descriptor_check_unreachable pkg) as [[_ ->]|[_ ->]];
           [intros gb' Heq; rewrite Hown in Heq; discriminate Heq
           | left; reflexivity | right; cbn; tauto]).
    rewrite (validate_object pkg gb Hown). right.
    repeat match goal with
           | |- context [if missing gb ?k then _ else _] =>
               destruct (missing gb k); [cbn; tauto|]
           end.
    cbn. tauto.
  - destruct (descriptor_check_unreachable pkg) as [[_ ->]|[_ ->]];
      [intros gb' Heq; rewrite Hown in Heq; discriminate Heq
      | left; reflexivity | right; cbn; tauto].
Qed.

(** X1: whatever the manifest, [validateConfiguration] writes nothing,
    raises nothing but a [TypeError], and returns either no error or one
    of the six messages about a field; the message of the descriptor
    check, "'goBinary' property must be defined and be an object", is
    never returned. *)
Theorem X1_validate_outcomes (packageJson : value) :
  events (validateConfiguration packageJson) = [] /\
  (result (validateConfiguration packageJson) = Throw TypeError \/
   result (validateConfiguration packageJson) = Ret None \/
   exists f, In f required_fields /\
     exists msg, result (validateConfiguration packageJson) = Ret (Some msg) /\
                 names_field msg f = true) /\
  result (validateConfiguration packageJson)
  <> Ret (Some "'goBinary' property must be defined and be an object").
Proof.
  split; [apply (always_silent _ (validate_always _ _ packageJson))|].
  destruct (validate_result packageJson) as [H|H].
  - rewrite H. split; [left; reflexivity | discriminate].
  - cbn [In] in H.
    assert (Hname : forall f msg, In f required_fields -> names_field msg f = true ->
              Ret (Some msg) = Throw TypeError \/ Ret (Some msg) = Ret None \/
              exists f', In f' required_fields /\
                exists msg', @Ret (option string) (Some msg) = Ret (Some msg') /\
                             names_field msg' f' = true).
    { intros f msg Hf Hn. right. right. exists f. split; [exact Hf|].
      exists msg. split; [reflexivity | exact Hn]. }
    destruct H as [H|[H|[H|[H|[H|[H|[H|[]]]]]]]]; rewrite <- H;
      (split; [|discriminate]).
    + apply (Hname "version"); [cbn; tauto | reflexivity].
    + apply (Hname "name"); [cbn; tauto | reflexivity].
    + apply (Hname "path"); [cbn; tauto | reflexivity].
    + apply (Hname "owner"); [cbn; tauto | reflexivity].
    + apply (Hname "repo"); [cbn; tauto | reflexivity].
    + apply (Hname "assetName"); [cbn; tauto | reflexivity].
    + right. left. reflexivity.
Qed.

(** ** What parsing writes *)

(** After validation, building the options is silent. *)
Lemma parse_output (w : World) :
  events (parsePackageJson w) = [] \/
  exists line, parsePackageJson w = ([ConsoleError line], Ret None).
Proof.
  unfold parsePackageJson.
  destruct (js_in (process_arch w) ARCH_MAPPING); cbn [negb];
    [|right; eexists; reflexivity].
  destruct (js_in (process_platform w) PLATFORM_MAPPING); cbn [negb];
    [|right; eexists; reflexivity].
  destruct (package_json w) as [| |packageJson];
    [right; eexists; reflexivity | left; reflexivity |].
  destruct (always_silent _ (validate_always _ _ packageJson)) as [Hev _].
  destruct (validateConfiguration packageJson) as [l o]. cbn in Hev. subst l.
  destruct o as [error| | |]; cbn [bind]; try (left; reflexivity).
  destruct (reported error); [right; eexists; reflexivity|]. left.
  match goal with
  | |- events (let (l', o) := ?rest in _) = [] =>
      assert (Hrest : always (fun _ => False) (fun _ => False) rest)
        by (repeat first [always_step | progress cbv zeta]);
      apply always_silent in Hrest as [Hrest _];
      destruct rest as [l' o']; cbn in Hrest |- *; exact Hrest
  end.
Qed.

Lemma parse_never_exits (w : World) (code : Z) :
  result (parsePackageJson w) <> Exited code.
Proof.
  unfold parsePackageJson.
  destruct (js_in (process_arch w) ARCH_MAPPING); cbn [negb]; [|discriminate].
  destruct (js_in (process_platform w) PLATFORM_MAPPING); cbn [negb]; [|discriminate].
  destruct (package_json w) as [| |packageJson]; try discriminate.
  destruct (always_silent _ (validate_always _ _ packageJson)) as [Hev Hex].
  destruct (validateConfiguration packageJson) as [l o]. cbn in Hev, Hex. subst l.
  destruct o as [error| |c|]; cbn [bind]; try discriminate;
    [|exfalso; apply (Hex c); reflexivity].
  destruct (reported error); [discriminate|].
  match goal with
  | |- result (let (l', o) := ?rest in _) <> _ =>
      assert (Hrest : always (fun _ => False) (fun _ => False) rest)
        by (repeat first [always_step | progress cbv zeta]);
      apply always_silent in Hrest as [_ Hrest];
      destruct rest as [l' o']; cbn in Hrest |- *; apply Hrest
  end.
Qed.

(** X2: [parsePackageJson] writes at most one line to the standard
    error, and a line written means that no options are returned: when
    options are returned, or an exception is raised, nothing was
    written.  It never ends the process itself. *)
Theorem X2_parse_output (w : World) :
  (events (parsePackageJson w) = [] \/
   exists line, parsePackageJson w = ([ConsoleError line], Ret None)) /\
  (forall opts, result (parsePackageJson w) = Ret (Some opts) ->
                parsePackageJson w = ret (Some opts)) /\
  (forall code, result (parsePackageJson w) <> Exited code).
Proof.
  split; [apply parse_output|]. split; [|apply parse_never_exits].
  intros opts Hres. destruct (parse_output w) as [Hev|[line Hline]].
  - destruct (parsePackageJson w) as [l o]. cbn in Hev, Hres. subst. reflexivity.
  - rewrite Hline in Hres. discriminate.
Qed.

(** ** Installing when parsing fails *)

Lemma install_without_options (w : World) (l : list event)
    (callback : option string -> M unit) :
  parsePackageJson w = (l, Ret None) ->
  install w callback
  = (l ++ events (callback (Some INVALID_INPUT)),
     result (callback (Some INVALID_INPUT))).
Proof. intros Hparse. unfold install. rewrite Hparse, bind_events. reflexivity. Qed.

(** X3: on a host whose architecture, or else whose platform, is in
    neither table, the [install] command writes the line about the
    architecture (or the platform) and then "Invalid inputs", and exits
    with code 1, whatever the manifest file is: it is not read. *)
Theorem X3_unsupported_host (w : World) (a0 a1 : string) (rest : list string) :
  process_argv w = a0 :: a1 :: "install" :: rest ->
  (js_in (process_arch w) ARCH_MAPPING = false ->
   main w
   = ([ConsoleError ("Installation is not supported for this architecture: "
                     +:+ process_arch w);
       ConsoleError "Invalid inputs"], Exited 1)) /\
  (js_in (process_arch w) ARCH_MAPPING = true ->
   js_in (process_platform w) PLATFORM_MAPPING = false ->
   main w
   = ([ConsoleError ("Installation is not supported for this platform: "
                     +:+ process_platform w);
       ConsoleError "Invalid inputs"], Exited 1)).
Proof.
  intros Hargv. unfold main. rewrite Hargv.
  change (actions !! "install") with (Some Install). cbn [run]. split.
  - intros Harch.
    rewrite (install_without_options w
               [ConsoleError ("Installation is not supported for this architecture: "
                              +:+ process_arch w)]); [reflexivity|].
    unfold parsePackageJson. rewrite Harch. reflexivity.
  - intros Harch Hplat.
    rewrite (install_without_options w
               [ConsoleError ("Installation is not supported for this platform: "
                              +:+ process_platform w)]); [reflexivity|].
    unfold parsePackageJson. rewrite Harch, Hplat. reflexivity.
Qed.

Lemma X3_unsupported_host_witness :
  main (mips_world Malformed)
  = ([ConsoleError "Installation is not supported for this architecture: mips";
      ConsoleError "Invalid inputs"], Exited 1).
Proof.
  destruct (X3_unsupported_host (mips_world Malformed) "node" "index.js" [] eq_refl)
    as [Harch _].
  apply Harch. reflexivity.
Defined.

(** X4: when [parsePackageJson] returns no options, [install] does
    nothing but call back with "Invalid inputs": no directory is
    created and no request is made, and the script exits with code 1
    after that line. *)
Theorem X4_install_without_options (w : World) (l : list event) :
  parsePackageJson w = (l, Ret None) ->
  (forall callback,
     install w callback
     = (l ++ events (callback (Some "Invalid inputs")),
        result (callback (Some "Invalid inputs")))) /\
  install w report = (l ++ [ConsoleError "Invalid inputs"], Exited 1).
Proof.
  intros Hparse. split.
  - intros callback. apply install_without_options, Hparse.
  - rewrite (install_without_options w l report Hparse). reflexivity.
Qed.

Lemma X4_install_without_options_witness :
  install missing_world report
  = ([ConsoleError ("Unable to find package.json. " +:+
        "Please run this script at root of the package you want to be installed");
      ConsoleError "Invalid inputs"], Exited 1).
Proof.
  destruct (X4_install_without_options missing_world
              [ConsoleError ("Unable to find package.json. " +:+
                 "Please run this script at root of the package you want to be installed")]
              eq_refl) as [_ Hreport].
  exact Hreport.
Defined.

(** X5: on a supported host, a manifest file that is not JSON makes
    [parsePackageJson] raise a [SyntaxError] that nothing catches:
    [install] and [uninstall] write nothing and never call back. *)
Theorem X5_malformed_manifest (w : World) :
  js_in (process_arch w) ARCH_MAPPING = true ->
  js_in (process_platform w) PLATFORM_MAPPING = true ->
  package_json w = Malformed ->
  parsePackageJson w = ([], Throw SyntaxError) /\
  (forall callback, install w callback = ([], Throw SyntaxError)) /\
  (forall callback, uninstall w callback = ([], Throw SyntaxError)).
Proof.
  intros Harch Hplat Hfile.
  assert (Hparse : parsePackageJson w = ([], Throw SyntaxError)).
  { unfold parsePackageJson. rewrite Harch, Hplat, Hfile. reflexivity. }
  split; [exact Hparse|]. split; intros callback.
  - unfold install. rewrite Hparse. reflexivity.
  - apply uninstall_parse_throws, Hparse.
Qed.

Lemma X5_malformed_manifest_witness :
  install (linux_world ["node"; "index.js"; "install"] ∅ Malformed npm_bin_ok
             (Response 200 (Json sample_releases))) report
  = ([], Throw SyntaxError).
Proof.
  destruct (X5_malformed_manifest
              (linux_world ["node"; "index.js"; "install"] ∅ Malformed npm_bin_ok
                 (Response 200 (Json sample_releases)))
              eq_refl eq_refl eq_refl) as (_ & Hinstall & _).
  apply Hinstall.
Defined.

(** ** Asking for the releases *)

(** With options, an extraction directory that can be created and, if
    [auth] is set, a token, [install] creates the directory, asks for
    the list of releases and hands the reply to [onReleaseResponse]. *)
Lemma install_run (w : World) (opts : Options) (dir : string)
    (callback : option string -> M unit) :
  parsePackageJson w = ret (Some opts) ->
  binPath opts = JStr dir -> mkdirp_error w dir = None ->
  (truthy (auth opts) = true ->
   exists t, process_env w !! "GITHUB_TOKEN" = Some t /\ nonempty t = true) ->
  install w callback
  = (Mkdirp dir :: Request (releasesOptions opts (token_of w opts))
       :: events (onReleaseResponse w opts (token_of w opts) callback (releases_reply w)),
     result (onReleaseResponse w opts (token_of w opts) callback (releases_reply w))).
Proof.
  intros Hparse Hdir Hmk Htoken. unfold install, token_of.
  rewrite Hparse, bind_ret_l. unfold mkdirp_sync. rewrite Hdir, Hmk, bind_emit.
  destruct (truthy (auth opts)) eqn:Hauth.
  - destruct (Htoken eq_refl) as (t & Ht & Hne). rewrite Ht, Hne. cbn [andb negb].
    rewrite bind_emit. reflexivity.
  - cbn [andb]. rewrite bind_emit. reflexivity.
Qed.

(** X6: when the request for the releases fails on the network, or is
    answered with a status other than 200, [install] reports it (the
    URL and the error, or the status code) and the script exits with
    code 1; the body of the reply is not looked at, and no asset is
    requested. *)
Theorem X6_release_query_failed (w : World) (opts : Options) (dir : string) :
  parsePackageJson w = ret (Some opts) ->
  binPath opts = JStr dir -> mkdirp_error w dir = None ->
  (truthy (auth opts) = true ->
   exists t, process_env w !! "GITHUB_TOKEN" = Some t /\ nonempty t = true) ->
  (forall error,
     releases_reply w = NetworkError error ->
     install w report
     = ([Mkdirp dir; Request (releasesOptions opts (token_of w opts));
         ConsoleError ("Error downloading from URL: "
                       +:+ endpoint_url w (releasesOptions opts (token_of w opts))
                       +:+ " " +:+ error)], Exited 1)) /\
  (forall statusCode body,
     releases_reply w = Response statusCode body -> statusCode <> 200 ->
     install w report
     = ([Mkdirp dir; Request (releasesOptions opts (token_of w opts));
         ConsoleError ("Error requesting release info. HTTP Status Code: "
                       +:+ show statusCode)], Exited 1)).
Proof.
  intros Hparse Hdir Hmk Htoken. split.
  - intros error Hreply.
    rewrite (install_run w opts dir report Hparse Hdir Hmk Htoken), Hreply.
    reflexivity.
  - intros statusCode body Hreply Hstatus.
    rewrite (install_run w opts dir report Hparse Hdir Hmk Htoken), Hreply.
    unfold onReleaseResponse.
    destruct (Z.eqb_spec statusCode 200) as [->|_]; [congruence|]. reflexivity.
Qed.

Lemma X6_release_query_failed_witness :
  install (linux_world ["node"; "index.js"; "install"] ∅
             (Parsed (JObj sample_manifest)) npm_bin_ok (Response 404 BadJson)) report
  = ([Mkdirp "./bin"; Request (releasesOptions sample_options None);
      ConsoleError "Error requesting release info. HTTP Status Code: 404"], Exited 1).
Proof.
  destruct (X6_release_query_failed
              (linux_world ["node"; "index.js"; "install"] ∅
                 (Parsed (JObj sample_manifest)) npm_bin_ok (Response 404 BadJson))
              sample_options "./bin" eq_refl eq_refl eq_refl) as [_ Hstatus].
  - discriminate.
  - apply (Hstatus 404 BadJson); [reflexivity | discriminate].
Defined.

(** X7: when the reply has status 200 but its body is not JSON, or is
    JSON that is not an array, the callback of the request raises an
    exception ([SyntaxError], [TypeError]) that nothing catches:
    [install] does not call back and requests no asset. *)
Theorem X7_release_body_unusable (w : World) (opts : Options) (dir : string)
    (callback : option string -> M unit) :
  parsePackageJson w = ret (Some opts) ->
  binPath opts = JStr dir -> mkdirp_error w dir = None ->
  (truthy (auth opts) = true ->
   exists t, process_env w !! "GITHUB_TOKEN" = Some t /\ nonempty t = true) ->
  (releases_reply w = Response 200 BadJson ->
   install w callback
   = ([Mkdirp dir; Request (releasesOptions opts (token_of w opts))],
      Throw SyntaxError)) /\
  (forall v, releases_reply w = Response 200 (Json v) ->
             (forall rs, v <> JArr rs) ->
     install w callback
     = ([Mkdirp dir; Request (releasesOptions opts (token_of w opts))],
        Throw TypeError)).
Proof.
  intros Hparse Hdir Hmk Htoken. split.
  - intros Hreply.
    rewrite (install_run w opts dir callback Hparse Hdir Hmk Htoken), Hreply.
    reflexivity.
  - intros v Hreply Hv.
    rewrite (install_run w opts dir callback Hparse Hdir Hmk Htoken), Hreply.
    destruct v as [| | | | |rs|]; try reflexivity.
    exfalso. apply (Hv rs). reflexivity.
Qed.

Lemma X7_release_body_unusable_witness :
  install (linux_world ["node"; "index.js"; "install"] ∅
             (Parsed (JObj sample_manifest)) npm_bin_ok
             (Response 200 (Json (JObj [("message", JStr "Not Found")])))) report
  = ([Mkdirp "./bin"; Request (releasesOptions sample_options None)], Throw TypeError).
Proof.
  destruct (X7_release_body_unusable
              (linux_world ["node"; "index.js"; "install"] ∅
                 (Parsed (JObj sample_manifest)) npm_bin_ok
                 (Response 200 (Json (JObj [("message", JStr "Not Found")]))))
              sample_options "./bin" report eq_refl eq_refl eq_refl) as [_ Hbody].
  - discriminate.
  - apply (Hbody (JObj [("message", JStr "Not Found")])); [reflexivity | discriminate].
Defined.

(** ** What [install] sends and how it can end *)

Lemma always_report_error (E : event -> Prop) (C : Z -> Prop) (msg : string) :
  nonempty msg = true -> E (ConsoleError msg) -> C 1 ->
  always E C (report (Some msg)).
Proof.
  intros Hne He Hc. rewrite (report_error msg Hne).
  split; [repeat constructor; exact He|]. intros code [= <-]. exact Hc.
Qed.

Lemma always_find (E : event -> Prop) (C : Z -> Prop) (p : value -> M bool)
    (xs : list value) :
  (forall x, always E C (p x)) -> always E C (find p xs).
Proof.
  intros Hp. induction xs as [|x xs IH]; [apply always_ret|].
  cbn [find]. apply always_bind; [apply Hp|]. intros [|] _; [apply always_ret | exact IH].
Qed.

Lemma always_find_in (E : event -> Prop) (C : Z -> Prop) (p : value -> M bool)
    (xs : value) :
  (forall x, always E C (p x)) -> always E C (find_in xs p).
Proof.
  intros Hp. destruct xs; try apply always_throw. apply always_find, Hp.
Qed.

(** Whatever the reply, the callback of the release request writes
    error lines or requests an asset of the repository, with the token
    it was given, and ends the process, if at all, with code 1. *)
Lemma release_response_always (E : event -> Prop) (w : World) (opts : Options)
    (token : option string) (reply : HttpReply) :
  (forall line, E (ConsoleError line)) ->
  (forall id, E (Request (assetOptions opts token id))) ->
  always E (fun code => code = 1) (onReleaseResponse w opts token report reply).
Proof.
  intros Hline Hreq. unfold onReleaseResponse.
  destruct reply as [error|statusCode body].
  { apply always_report_error; [reflexivity | apply Hline | reflexivity]. }
  destruct (negb (statusCode =? 200)).
  { apply always_report_error; [reflexivity | apply Hline | reflexivity]. }
  apply always_bind; [destruct body; first [apply always_ret | apply always_throw]|].
  intros responseBody _. apply always_bind.
  { apply always_find_in. intros x. repeat always_step. }
  intros [release|] _;
    [|apply always_report_error; [reflexivity | apply Hline | reflexivity]].
  apply always_bind; [apply always_get|]. intros assets _. apply always_bind.
  { apply always_find_in. intros x. repeat always_step. }
  intros [asset|] _;
    [|apply always_report_error; [reflexivity | apply Hline | reflexivity]].
  apply always_bind; [apply always_get|]. intros id _.
  apply always_emit, Hreq.
Qed.

Lemma always_mkdirp (E : event -> Prop) (C : Z -> Prop) (w : World) (dir : value) :
  (forall p, E (Mkdirp p)) -> always E C (mkdirp_sync w dir).
Proof.
  intros Hmk. unfold mkdirp_sync. destruct dir; try apply always_unmodelled.
  destruct (mkdirp_error w s); [apply always_throw | apply always_emit, Hmk].
Qed.

(** The header [install] sends with the options [opts]. *)
Lemma install_always (E : event -> Prop) (w : World) (opts : Options) :
  parsePackageJson w = ret (Some opts) ->
  (forall line, E (ConsoleError line)) ->
  (forall p, E (Mkdirp p)) ->
  (forall o, req_owner o = owner opts -> req_repo o = repo opts ->
             (truthy (auth opts) = false -> authorization o = None) ->
             (truthy (auth opts) = true ->
              exists t, process_env w !! "GITHUB_TOKEN" = Some t /\
                        nonempty t = true /\
                        authorization o = Some ("token " +:+ t)) ->
             E (Request o)) ->
  always E (fun code => code = 1) (install w report).
Proof.
  intros Hparse Hline Hmk Hreq. unfold install. rewrite Hparse, bind_ret_l.
  apply always_bind; [apply always_mkdirp, Hmk|]. intros _ _.
  destruct (truthy (auth opts)) eqn:Hauth; cbn [andb].
  - destruct (process_env w !! "GITHUB_TOKEN") as [t|] eqn:Ht;
      [|apply always_emit, Hline].
    destruct (nonempty t) eqn:Hne; cbn [negb]; [|apply always_emit, Hline].
    assert (Hhdr : forall o, authorization o = authorization_header (Some t) ->
              exists t', Some t = Some t' /\ nonempty t' = true /\
                         authorization o = Some ("token " +:+ t')).
    { intros o Ho. exists t. cbn in Ho. rewrite Hne in Ho. auto. }
    apply always_bind.
    + apply always_emit, Hreq; try reflexivity; [discriminate|].
      intros _. apply Hhdr. reflexivity.
    + intros _ _. apply release_response_always; [exact Hline|].
      intros id. apply Hreq; try reflexivity; [discriminate|].
      intros _. apply Hhdr. reflexivity.
  - apply always_bind.
    + apply always_emit, Hreq; try reflexivity; discriminate.
    + intros _ _. apply release_response_always; [exact Hline|].
      intros id. apply Hreq; try reflexivity; discriminate.
Qed.

(** X8: every request [install] makes, for the releases or for an
    asset, whatever the replies, goes to the owner and repository of the
    manifest and carries the header "token " followed by GITHUB_TOKEN
    when [auth] is set, and no authorization header when it is not: the
    token in the environment is not sent unless the manifest asks. *)
Theorem X8_requests_and_token (w : World) (opts : Options) (o : RequestOptions) :
  parsePackageJson w = ret (Some opts) ->
  In (Request o) (events (install w report)) ->
  req_owner o = owner opts /\ req_repo o = repo opts /\
  (truthy (auth opts) = false -> authorization o = None) /\
  (truthy (auth opts) = true ->
   exists t, process_env w !! "GITHUB_TOKEN" = Some t /\ nonempty t = true /\
             authorization o = Some ("token " +:+ t)).
Proof.
  intros Hparse Hin.
  pose (E := fun e : event =>
               match e with
               | Request o =>
                   req_owner o = owner opts /\ req_repo o = repo opts /\
                   (truthy (auth opts) = false -> authorization o = None) /\
                   (truthy (auth opts) = true ->
                    exists t, process_env w !! "GITHUB_TOKEN" = Some t /\
                              nonempty t = true /\
                              authorization o = Some ("token " +:+ t))
               | _ => True
               end).
  assert (Hall : always E (fun code => code = 1) (install w report)).
  { apply (install_always E w opts Hparse); intros; cbn; auto. }
  destruct Hall as [Hall _]. rewrite List.Forall_forall in Hall.
  exact (Hall _ Hin).
Qed.

Lemma X8_requests_and_token_witness :
  req_owner (releasesOptions sample_options None) = JStr "acme" /\
  authorization (releasesOptions sample_options None) = None.
Proof.
  destruct (X8_requests_and_token
              (linux_world ["node"; "index.js"; "install"]
                 {[ "GITHUB_TOKEN" := "secret" ]}
                 (Parsed (JObj sample_manifest)) npm_bin_ok
                 (Response 200 (Json sample_releases)))
              sample_options (releasesOptions sample_options None) eq_refl)
    as (Ho & _ & Hnone & _).
  - cbn. right. left. reflexivity.
  - split; [exact Ho | apply Hnone; reflexivity].
Defined.

Lemma always_no_exit {A} (E : event -> Prop) (m : M A) :
  always E (fun _ => False) m -> forall code, result m <> Exited code.
Proof. intros [_ Hc] code Hr. exact (Hc code Hr). Qed.

Lemma fails_no_exit {A} (m : M A) :
  (forall code, result m <> Exited code) -> fails_with_report m.
Proof. intros Hm code Hr. destruct (Hm code Hr). Qed.

Lemma fails_bind {A B} (m : M A) (k : A -> M B) :
  (forall code, result m <> Exited code) ->
  (forall a, result m = Ret a -> fails_with_report (k a)) ->
  fails_with_report (bind m k).
Proof.
  destruct m as [l [a|e|c|]]; intros Hm Hk; cbn [bind];
    try (apply fails_no_exit; discriminate).
  - specialize (Hk a eq_refl). destruct (k a) as [l' o]. intros code Hr.
    destruct (Hk code Hr) as (Hcode & l0 & line & Hl0). cbn in Hl0. subst l'.
    split; [exact Hcode|]. exists (l ++ l0), line. cbn. apply app_assoc.
  - exfalso. apply (Hm c). reflexivity.
Qed.

Lemma fails_report_error (msg : string) :
  nonempty msg = true -> fails_with_report (report (Some msg)).
Proof.
  intros Hne. rewrite (report_error msg Hne). intros code [= <-].
  split; [reflexivity|]. exists [], msg. reflexivity.
Qed.

Lemma release_response_fails (w : World) (opts : Options) (token : option string)
    (reply : HttpReply) :
  fails_with_report (onReleaseResponse w opts token report reply).
Proof.
  unfold onReleaseResponse. destruct reply as [error|statusCode body].
  { apply fails_report_error. reflexivity. }
  destruct (negb (statusCode =? 200)); [apply fails_report_error; reflexivity|].
  apply fails_bind; [destruct body; discriminate|]. intros responseBody _.
  apply fails_bind.
  { apply (always_no_exit (fun _ => True)), always_find_in.
    intros x. repeat always_step. }
  intros [release|] _; [|apply fails_report_error; reflexivity].
  apply fails_bind; [apply (always_no_exit (fun _ => True)), always_get|].
  intros assets _. apply fails_bind.
  { apply (always_no_exit (fun _ => True)), always_find_in.
    intros x. repeat always_step. }
  intros [asset|] _; [|apply fails_report_error; reflexivity].
  apply fails_bind; [apply (always_no_exit (fun _ => True)), always_get|].
  intros id _. apply fails_no_exit. discriminate.
Qed.

(** X9: as far as the request for the asset, [install] never has the
    script call [process.exit] with a code other than 1, and when it is
    called the last thing done before was a [console.error]: in that
    stage [install] never calls back with success.  (The stage can end
    without [process.exit]: with the asset requested, with the message
    about the missing token, or with an exception.) *)
Theorem X9_install_exit_means_failure (w : World) (code : Z) :
  result (install w report) = Exited code ->
  code = 1 /\
  exists l line, events (install w report) = l ++ [ConsoleError line].
Proof.
  revert code. change (fails_with_report (install w report)).
  unfold install. apply fails_bind; [apply parse_never_exits|].
  intros [opts|] _; [|apply fails_report_error; reflexivity].
  apply fails_bind.
  { apply (always_no_exit (fun _ => True)), always_mkdirp. intros; exact I. }
  intros _ _.
  destruct (truthy (auth opts) && negb _); [apply fails_no_exit; discriminate|].
  apply fails_bind; [discriminate|]. intros _ _. apply release_response_fails.
Qed.

Lemma X9_install_exit_means_failure_witness :
  exists l line, events (install missing_world report) = l ++ [ConsoleError line].
Proof.
  apply (X9_install_exit_means_failure missing_world 1). reflexivity.
Defined.

(** ** The footprint of [uninstall] *)

(** X10: whatever the world, [uninstall] writes at most the line of a
    failed parse, runs [npm bin] at most once and deletes at most one
    file; it creates no directory and makes no request.  When
    [parsePackageJson] returns, with or without options, [npm bin] is
    run and the script calls [process.exit(0)]; when it throws, the
    exception is not caught: nothing is written or run and
    [process.exit] is not called. *)
Theorem X10_uninstall_footprint (w : World) :
  exists lines tail,
    events (uninstall w report) = lines ++ tail /\
    (lines = [] \/ exists line, lines = [ConsoleError line]) /\
    match result (parsePackageJson w) with
    | Ret _ =>
        result (uninstall w report) = Exited 0 /\
        (tail = [Exec "npm bin"] \/
         exists file, tail = [Exec "npm bin"; Unlink file])
    | Throw e =>
        result (uninstall w report) = Throw e /\ lines = [] /\ tail = []
    | Exited _ => False
    | Unmodelled => result (uninstall w report) = Unmodelled /\ tail = []
    end.
Proof.
  destruct (parsePackageJson w) as [l o] eqn:Hparse. exists l.
  assert (Hl : l = [] \/ exists line, l = [ConsoleError line] /\ o = Ret None).
  { destruct (parse_output w) as [Hev|[line Hline]].
    - left. rewrite Hparse in Hev. exact Hev.
    - right. exists line. rewrite Hparse in Hline. split; congruence. }
  assert (Hl' : l = [] \/ exists line, l = [ConsoleError line]).
  { destruct Hl as [Hl|(line & Hl & _)]; [left; exact Hl | right; eauto]. }
  cbn [result snd]. destruct o as [opts|e|c|].
  - destruct (installation_path_once w) as [dir Hdir].
    unfold uninstall. rewrite Hparse, bind_events, Hdir, bind_ret_l.
    destruct opts as [opts|].
    + rewrite delete_binary_some, try_unlink, bind_events.
      exists (Exec "npm bin" :: deletion w (path_join w dir (binName opts))).
      cbn. rewrite app_nil_r. split; [reflexivity|]. split; [exact Hl'|].
      split; [reflexivity|]. unfold deletion.
      destruct (unlink_error w _); [left; reflexivity|].
      right. eexists. reflexivity.
    + unfold delete_binary. rewrite bind_throw. cbn.
      exists [Exec "npm bin"]. repeat split; auto.
  - exists []. unfold uninstall. rewrite Hparse. cbn. rewrite app_nil_r.
    repeat split; auto.
    destruct Hl as [Hl|(line & _ & Ho)]; [exact Hl | discriminate Ho].
  - exfalso. apply (parse_never_exits w c). rewrite Hparse. reflexivity.
  - exists []. unfold uninstall. rewrite Hparse. cbn. rewrite app_nil_r. auto.
Qed.

(** ** The leading v of the version *)

Lemma strip_v_plain (ver : string) : String.prefix "v" ver = false -> strip_v ver = ver.
Proof.
  destruct ver as [|c rest]; [reflexivity|]. cbn [String.prefix strip_v].
  destruct (ascii_dec "v" c) as [<-|Hc]; [destruct rest; discriminate|].
  intros _. destruct (Ascii.eqb_spec c "v") as [->|_]; [congruence | reflexivity].
Qed.

(** X11: the leading "v" of the version is optional.  Two manifests
    that differ only in that one writes the version [ver] (not starting
    with "v") and the other "v" followed by [ver] are parsed, on the same
    supported host, to the same options, with version [ver], and lead to
    the same tag "v" followed by [ver]. *)
Theorem X11_version_prefix_optional (w1 w2 : World)
    (pkg1 gb1 pkg2 gb2 : list (string * value)) (a p name ver tmpl : string) :
  supported w1 a p ->
  process_arch w2 = process_arch w1 ->
  process_platform w2 = process_platform w1 ->
  package_json w1 = Parsed (JObj pkg1) -> own pkg1 "goBinary" = Some (JObj gb1) ->
  package_json w2 = Parsed (JObj pkg2) -> own pkg2 "goBinary" = Some (JObj gb2) ->
  (forall k, k <> "version" -> field gb2 k = field gb1 k) ->
  field gb1 "version" = JStr ver ->
  field gb2 "version" = JStr ("v" +:+ ver) ->
  String.prefix "v" ver = false -> nonempty ver = true ->
  field gb1 "name" = JStr name -> nonempty name = true ->
  missing gb1 "path" = false -> missing gb1 "owner" = false ->
  missing gb1 "repo" = false ->
  field gb1 "assetName" = JStr tmpl -> nonempty tmpl = true ->
  parsePackageJson w2 = parsePackageJson w1 /\
  exists opts, parsePackageJson w1 = ret (Some opts) /\
               version opts = ver /\ tag_of opts = "v" +:+ ver.
Proof.
  intros [Ha Hp] Harch Hplat Hfile1 Hgb1 Hfile2 Hgb2 Hsame Hver1 Hver2 Hpre Hne
    Hname Hname' Hpath Howner Hrepo Htmpl Htmpl'.
  assert (Hm : forall k, k <> "version" -> missing gb2 k = missing gb1 k).
  { intros k Hk. unfold missing. rewrite (Hsame k Hk). reflexivity. }
  rewrite (parse_valid w1 pkg1 gb1 a p name ver tmpl) by assumption.
  rewrite (parse_valid w2 pkg2 gb2 a p name ("v" +:+ ver) tmpl);
    try assumption; try reflexivity;
    try (rewrite Harch; exact Ha); try (rewrite Hplat; exact Hp);
    try (rewrite Hsame by discriminate; assumption);
    try (rewrite Hm by discriminate; assumption).
  change (strip_v ("v" +:+ ver)) with ver. rewrite (strip_v_plain ver Hpre).
  unfold resolved_name. rewrite Hplat, !Hsame by discriminate.
  split; [reflexivity|]. eexists. split; [reflexivity|].
  split; reflexivity.
Qed.

Lemma X11_version_prefix_optional_witness :
  parsePackageJson sample_world
  = parsePackageJson
      (linux_world ["node"; "index.js"; "install"] ∅
         (Parsed (JObj [("goBinary",
                         JObj (("version", JStr "1.0.0") :: sample_goBinary))]))
         npm_bin_ok (Response 200 (Json sample_releases))).
Proof.
  destruct (X11_version_prefix_optional
              (linux_world ["node"; "index.js"; "install"] ∅
                 (Parsed (JObj [("goBinary",
                                 JObj (("version", JStr "1.0.0") :: sample_goBinary))]))
                 npm_bin_ok (Response 200 (Json sample_releases)))
              sample_world
              [("goBinary", JObj (("version", JStr "1.0.0") :: sample_goBinary))]
              (("version", JStr "1.0.0") :: sample_goBinary)
              sample_manifest sample_goBinary
              "amd64" "linux" "mytool" "1.0.0" "mytool-{{platform}}-{{arch}}")
    as [Hsame _]; [..|exact Hsame]; try reflexivity.
  - split; reflexivity.
  - intros k Hk. unfold field. cbn [own].
    destruct (String.eqb_spec "version" k) as [<-|_]; [congruence | reflexivity].
Defined.

(** ** Placing the binary *)

Lemma lift_installation_path (w : World) (dir : string) :
  (forall A (callback : option string -> string -> M A),
     getInstallationPath w callback
     = (Exec "npm bin" :: events (callback None dir), result (callback None dir))) ->
  lift (getInstallationPath w (fun err installationPath => ret (err, installationPath)))
  = ([Core (Exec "npm bin")], Ret (None, dir)).
Proof. intros Hdir. rewrite Hdir. reflexivity. Qed.

Lemma pbind_step {A B} (l : list step) (a : A) (k : A -> P B) :
  pbind (l, Ret a) k = (l ++ fst (k a), snd (k a)).
Proof. unfold pbind. destruct (k a). reflexivity. Qed.

(** X12: [verifyAndPlaceBinary] either finds no binary of the
    configured name in the extraction directory, and then calls back
    with the message that names it without running [npm bin] or moving
    anything; or it runs [npm bin] once and moves the binary, under the
    same name, from the extraction directory to the directory that
    [getInstallationPath] gives, and calls back with [null].  If the
    move fails, the exception escapes and the callback is not called. *)
Theorem X12_verify_and_place (w : World) (t : Transfer) (binName binPath : string) :
  exists dir,
    (forall A (callback : option string -> string -> M A),
       getInstallationPath w callback
       = (Exec "npm bin" :: events (callback None dir),
          result (callback None dir))) /\
    forall callback,
      (existsSync t (path_join w binPath binName) = false ->
       verifyAndPlaceBinary w t binName binPath callback
       = callback (EStr ("Downloaded binary does not contain the binary specified "
                         +:+ "in configuration - " +:+ binName))) /\
      (existsSync t (path_join w binPath binName) = true ->
       rename_error t (path_join w binPath binName) (path_join w dir binName) = None ->
       verifyAndPlaceBinary w t binName binPath callback
       = (Core (Exec "npm bin")
            :: Rename (path_join w binPath binName) (path_join w dir binName)
            :: fst (callback ENull),
          snd (callback ENull))) /\
      (forall code,
         existsSync t (path_join w binPath binName) = true ->
         rename_error t (path_join w binPath binName) (path_join w dir binName)
         = Some code ->
         verifyAndPlaceBinary w t binName binPath callback
         = ([Core (Exec "npm bin")], Throw (SystemError code))).
Proof.
  destruct (installation_path_once w) as [dir Hdir]. exists dir.
  split; [exact Hdir|]. intros callback. unfold verifyAndPlaceBinary.
  rewrite (lift_installation_path w dir Hdir). split; [|split].
  - intros ->. reflexivity.
  - intros -> Hmove. cbn [negb]. rewrite pbind_step. cbn [fst snd app].
    unfold renameSync. rewrite Hmove, pbind_step. reflexivity.
  - intros code -> Hmove. cbn [negb]. rewrite pbind_step. cbn [fst snd app].
    unfold renameSync. rewrite Hmove. reflexivity.
Qed.

Lemma X12_verify_and_place_witness :
  verifyAndPlaceBinary sample_world (sample_transfer true) "mytool" "./bin"
    report_value
  = ([Core (Exec "npm bin");
      Rename "./bin/mytool" "/home/dev/pkg/node_modules/.bin/mytool"], Exited 0) /\
  verifyAndPlaceBinary sample_world (sample_transfer false) "mytool" "./bin"
    report_value
  = ([Core (ConsoleError ("Downloaded binary does not contain the binary specified "
                          +:+ "in configuration - mytool"))], Exited 1).
Proof.
  split.
  - destruct (X12_verify_and_place sample_world (sample_transfer true)
                "mytool" "./bin") as (dir & Hdir & Hplace).
    destruct (Hplace report_value) as (_ & Hmoved & _).
    rewrite Hmoved by reflexivity.
    specialize (Hdir _ (fun _ d => ret d)). injection Hdir as <-. reflexivity.
  - destruct (X12_verify_and_place sample_world (sample_transfer false)
                "mytool" "./bin") as (dir & _ & Hplace).
    destruct (Hplace report_value) as (Hmissing & _).
    rewrite Hmissing by reflexivity. reflexivity.
Defined.

(** ** The events of the transfer *)

Lemma on_event_failure (w : World) (t : Transfer) (opts : Options)
    (e : emitter_event) (line : string) :
  failure_line e = Some line ->
  on_event w t opts report_value e = ([Core (ConsoleError line)], Exited 1).
Proof.
  destruct e as [printed|statusCode|printed|printed|]; cbn [failure_line on_event].
  - intros [= <-]. reflexivity.
  - destruct (statusCode =? 200); [discriminate|]. intros [= <-]. reflexivity.
  - intros [= <-]. reflexivity.
  - intros [= <-]. reflexivity.
  - discriminate.
Qed.

Lemma on_event_ignored (w : World) (t : Transfer) (opts : Options)
    (callback : error_value -> P unit) (e : emitter_event) :
  decisive e = false -> on_event w t opts callback e = ([], Ret tt).
Proof.
  destruct e as [printed|statusCode|printed|printed|]; try discriminate.
  cbn [decisive on_event]. intros ->. reflexivity.
Qed.

(** How the script ends on the end of the extraction. *)
Lemma on_untar_end (w : World) (t : Transfer) (opts : Options) :
  (exists o, on_event w t opts report_value UntarEnd = ([], o) /\
             o = Throw TypeError /\ forall dir, binPath opts <> JStr dir) \/
  (exists line, on_event w t opts report_value UntarEnd
                = ([Core (ConsoleError line)], Exited 1)) \/
  (exists code, on_event w t opts report_value UntarEnd
                = ([Core (Exec "npm bin")], Throw (SystemError code))) \/
  (exists dir idir,
     binPath opts = JStr dir /\
     existsSync t (path_join w dir (binName opts)) = true /\
     rename_error t (path_join w dir (binName opts))
       (path_join w idir (binName opts)) = None /\
     (forall A (callback : option string -> string -> M A),
        getInstallationPath w callback
        = (Exec "npm bin" :: events (callback None idir),
           result (callback None idir))) /\
     on_event w t opts report_value UntarEnd
     = ([Core (Exec "npm bin");
         Rename (path_join w dir (binName opts)) (path_join w idir (binName opts))],
        Exited 0)).
Proof.
  cbn [on_event].
  destruct (binPath opts) as [| | | |dir| |] eqn:Hdir;
    try (left; eexists; split; [reflexivity | split; [reflexivity | discriminate]]).
  right. destruct (installation_path_once w) as [idir Hidir].
  unfold verifyAndPlaceBinary. rewrite (lift_installation_path w idir Hidir).
  destruct (existsSync t (path_join w dir (binName opts))) eqn:Hex; cbn [negb].
  - right. rewrite pbind_step. cbn [fst snd app]. unfold renameSync.
    destruct (rename_error t _ _) as [code|] eqn:Hmove.
    + left. exists code. reflexivity.
    + right. exists dir, idir. repeat split; try assumption; reflexivity.
  - left. eexists. reflexivity.
Qed.

Lemma on_event_terminal (w : World) (t : Transfer) (opts : Options)
    (e : emitter_event) (k : unit -> P unit) :
  decisive e = true ->
  pbind (on_event w t opts report_value e) k = on_event w t opts report_value e.
Proof.
  intros Hd. destruct (failure_line e) as [line|] eqn:Hline.
  - rewrite (on_event_failure w t opts e line Hline). reflexivity.
  - destruct e as [printed|statusCode|printed|printed|]; try discriminate.
    + cbn in Hd, Hline. destruct (statusCode =? 200); discriminate.
    + destruct (on_untar_end w t opts)
        as [(o & -> & -> & _)|[(line & ->)|[(code & ->)|(dir & idir & _ & _ & _ & _ & ->)]]];
        reflexivity.
Qed.

Lemma dispatch_first (w : World) (t : Transfer) (opts : Options)
    (es : list emitter_event) :
  dispatch w t opts report_value es
  = match List.find decisive es with
    | Some e => on_event w t opts report_value e
    | None => ([], Ret tt)
    end.
Proof.
  induction es as [|e es IH]; [reflexivity|]. cbn [dispatch List.find].
  destruct (decisive e) eqn:Hd.
  - apply on_event_terminal, Hd.
  - rewrite (on_event_ignored w t opts report_value e Hd), pbind_step, IH.
    destruct (List.find decisive es); [destruct (on_event _ _ _ _ _)|]; reflexivity.
Qed.



(** X15: when the first event other than a response with status 200 is
    a failure (the request fails, the response has another status, or
    one of the streams reports an error), the script writes one line
    and exits with code 1 without running [npm bin] or moving anything.
    For a failed request the line is always "Error downloading from
    URL: undefined"; for a response it gives the status code; for a
    stream it is the error itself. *)
Theorem X15_transfer_failure (w : World) (t : Transfer) (opts : Options)
    (es : list emitter_event) (e : emitter_event) :
  List.find decisive es = Some e ->
  e <> UntarEnd ->
  exists line,
    dispatch w t opts report_value es = ([Core (ConsoleError line)], Exited 1) /\
    match e with
    | RequestError _ => line = "Error downloading from URL: undefined"
    | AssetResponse statusCode =>
        statusCode <> 200 /\
        line = "Error downloading binary. HTTP Status Code: " +:+ show statusCode
    | GunzipError printed | UntarError printed => line = printed
    | UntarEnd => False
    end.
Proof.
  intros Hfind He. rewrite dispatch_first, Hfind.
  apply find_some in Hfind as [_ Hd].
  destruct e as [printed|statusCode|printed|printed|].
  - eexists. split; [apply on_event_failure; reflexivity | reflexivity].
  - cbn in Hd. destruct (statusCode =? 200) eqn:Hs; [discriminate|].
    eexists. split.
    + apply on_event_failure. cbn. rewrite Hs. reflexivity.
    + split; [apply Z.eqb_neq, Hs | reflexivity].
  - eexists. split; [apply on_event_failure; reflexivity | reflexivity].
  - eexists. split; [apply on_event_failure; reflexivity | reflexivity].
  - congruence.
Qed.

Lemma X15_transfer_failure_witness :
  exists line,
    dispatch sample_world (sample_transfer true) sample_options report_value
      [AssetResponse 200; RequestError "ECONNRESET"; UntarEnd]
    = ([Core (ConsoleError line)], Exited 1) /\
    line = "Error downloading from URL: undefined".
Proof.
  apply (X15_transfer_failure sample_world (sample_transfer true) sample_options
           [AssetResponse 200; RequestError "ECONNRESET"; UntarEnd]
           (RequestError "ECONNRESET")); [reflexivity | discriminate].
Defined.

(** ** The name of the binary on Windows *)

(** X16: [uninstall] deletes the file named after the manifest's
    [name] in the installation directory, and on the platform "win32"
    (and only there) the name carries the suffix ".exe". *)
Theorem X16_uninstall_target (w : World) (pkg gb : list (string * value))
    (a p name ver tmpl : string) :
  supported w a p ->
  package_json w = Parsed (JObj pkg) -> own pkg "goBinary" = Some (JObj gb) ->
  field gb "version" = JStr ver -> nonempty ver = true ->
  field gb "name" = JStr name -> nonempty name = true ->
  missing gb "path" = false -> missing gb "owner" = false ->
  missing gb "repo" = false ->
  field gb "assetName" = JStr tmpl -> nonempty tmpl = true ->
  exists dir target,
    (forall A (callback : option string -> string -> M A),
       getInstallationPath w callback
       = (Exec "npm bin" :: events (callback None dir),
          result (callback None dir))) /\
    (process_platform w = "win32" -> target = path_join w dir (name +:+ ".exe")) /\
    (process_platform w <> "win32" -> target = path_join w dir name) /\
    (unlink_error w target = None ->
     uninstall w report = ([Exec "npm bin"; Unlink target], Exited 0)) /\
    (forall code, unlink_error w target = Some code ->
     uninstall w report = ([Exec "npm bin"], Exited 0)).
Proof.
  intros [Ha Hp] Hfile Hgb Hver Hver' Hname Hname' Hpath Howner Hrepo Htmpl Htmpl'.
  pose proof (parse_valid w pkg gb a p name ver tmpl Ha Hp Hfile Hgb Hver Hver'
                Hname Hname' Hpath Howner Hrepo Htmpl Htmpl') as Hparse.
  destruct (installation_path_once w) as [dir Hdir].
  exists dir, (path_join w dir (resolved_name w name)).
  split; [exact Hdir|]. unfold resolved_name. split; [|split; [|split]].
  - intros ->. reflexivity.
  - intros Hplat. destruct (String.eqb_spec (process_platform w) "win32");
      [congruence | reflexivity].
  - intros Hok. unfold uninstall.
    rewrite Hparse, bind_ret_l, Hdir, bind_ret_l, delete_binary_some, try_unlink.
    cbn [binName]. unfold deletion, resolved_name. rewrite Hok. reflexivity.
  - intros code Hcode. unfold uninstall.
    rewrite Hparse, bind_ret_l, Hdir, bind_ret_l, delete_binary_some, try_unlink.
    cbn [binName]. unfold deletion, resolved_name. rewrite Hcode. reflexivity.
Qed.

Lemma X16_uninstall_target_witness :
  uninstall windows_world report
  = ([Exec "npm bin"; Unlink "C:/pkg/node_modules/.bin/mytool.exe"], Exited 0).
Proof.
  destruct (X16_uninstall_target windows_world sample_manifest sample_goBinary
              "amd64" "windows" "mytool" "v1.0.0" "mytool-{{platform}}-{{arch}}")
    as (dir & target & Hdir & Hwin & _ & Hok & _);
    [split; reflexivity | reflexivity.. |].
  specialize (Hdir _ (fun _ d => ret d)). injection Hdir as <-.
  rewrite Hok; rewrite (Hwin eq_refl); reflexivity.
Defined.
